(** * VICE joystick input-mapping engine: a shallow embedding of
    [src/joyport/joystick.c] and the properties of its latch, dispatch,
    autofire, snapshot, registry and mapping-file code. *)

From Stdlib Require Import ZArith Lia Ascii String List.
From stdpp Require Import base option list sorting strings gmap.

Local Open Scope string_scope.
Local Open Scope Z_scope.

(** ** C integer conversions *)

(** Conversion to [uint16_t]. *)
Definition uint16 (z : Z) : Z := z mod 65536.

(** Conversion to [uint32_t]. *)
Definition uint32 (z : Z) : Z := z mod 4294967296.

(** Conversion to a 32-bit [int] (two's complement wrap-around). *)
Definition int32 (z : Z) : Z := (z + 2147483648) mod 4294967296 - 2147483648.

Definition UINT16_MAX : Z := 65535.
Definition UINT32_MAX : Z := 4294967295.
Definition INT32_MAX : Z := 2147483647.

(** Array read [a[i]]; the arrays of the source are zero-initialised. An
    index past the end is undefined in C and reads 0 here. *)
Definition rd (a : list Z) (i : nat) : Z := default 0 (a !! i).

(** Read of the two-dimensional array [a[i][j]]. *)
Definition rd2 (a : list (list Z)) (i j : nat) : Z := rd (default [] (a !! i)) j.

(** Write [a[i][j] = v]; a write past the end is undefined in C and is
    dropped here. *)
Definition wr2 (a : list (list Z)) (i j : nat) (v : Z) : list (list Z) :=
  alter (λ row, <[j:=v]> row) i a.

(** ** Pin constants (joystick.c, lines 91-106) *)

Definition JOYPAD_FIRE2 : Z := 0x20.
Definition JOYPAD_FIRE3 : Z := 0x40.
Definition JOYPAD_FIRE4 : Z := 0x80.
Definition JOYPAD_FIRE5 : Z := 0x100.
Definition JOYPAD_FIRE6 : Z := 0x200.
Definition JOYPAD_FIRE7 : Z := 0x400.
Definition JOYPAD_FIRE8 : Z := 0x800.
Definition JOYPAD_FIRE : Z := 0x10.
Definition JOYPAD_E : Z := 0x08.
Definition JOYPAD_W : Z := 0x04.
Definition JOYPAD_S : Z := 0x02.
Definition JOYPAD_N : Z := 0x01.

(** Modelled from the spec: joyport.h and joystick.h are absent. The pin
    values are the ones the mapping-file header of joystick.c documents
    (1/2/4/8/16/32/64 = u/d/l/r/fire/fire2/fire3) and the mask [0xffef] of
    [get_joystick_value] confirms for fire. *)
Definition JOYPORT_FIRE_BIT : Z := 4.
Definition JOYPORT_FIRE : Z := 0x10.
Definition JOYPORT_FIRE_POTX : Z := 0x20.
Definition JOYPORT_FIRE_POTY : Z := 0x40.
Definition JOYPORT_BIT_BOOL (val bit : Z) : Z := Z.land (Z.shiftr val bit) 1.
Definition JOYSTICK_DIRECTION_UP : Z := 1.
Definition JOYSTICK_DIRECTION_DOWN : Z := 2.
Definition JOYSTICK_DIRECTION_LEFT : Z := 4.
Definition JOYSTICK_DIRECTION_RIGHT : Z := 8.
Definition JOYSTICK_AUTOFIRE_MODE_PRESS : Z := 0.
Definition JOYSTICK_AUTOFIRE_MODE_PERMANENT : Z := 1.

(** to prevent illegal direction combinations *)
Definition joystick_opposite_direction : list Z :=
  [ 0;
    JOYPAD_S;
    JOYPAD_N;
    Z.lor JOYPAD_S JOYPAD_N;
    JOYPAD_E;
    Z.lor JOYPAD_E JOYPAD_S;
    Z.lor JOYPAD_E JOYPAD_N;
    Z.lor (Z.lor JOYPAD_E JOYPAD_S) JOYPAD_N;
    JOYPAD_W;
    Z.lor JOYPAD_W JOYPAD_S;
    Z.lor JOYPAD_W JOYPAD_N;
    Z.lor (Z.lor JOYPAD_W JOYPAD_S) JOYPAD_N;
    Z.lor JOYPAD_E JOYPAD_W;
    Z.lor (Z.lor JOYPAD_E JOYPAD_W) JOYPAD_S;
    Z.lor (Z.lor JOYPAD_E JOYPAD_W) JOYPAD_N;
    Z.lor (Z.lor (Z.lor JOYPAD_E JOYPAD_W) JOYPAD_S) JOYPAD_N ].

(** ** Mappings, inputs and devices *)

(** Modelled from the spec: [joystick_action_t] of the absent joystick.h,
    numbered as the mapping-file header lists the actions (0 none,
    1 joystick, 2 keyboard, 3 map, 4 UI activate, 5 UI function, 6 pot). *)
Inductive joystick_action_t :=
| JOY_ACTION_NONE
| JOY_ACTION_JOYSTICK
| JOY_ACTION_KEYBOARD
| JOY_ACTION_MAP
| JOY_ACTION_UI_ACTIVATE
| JOY_ACTION_UI_FUNCTION
| JOY_ACTION_POT_AXIS.

Definition action_to_Z (a : joystick_action_t) : Z :=
  match a with
  | JOY_ACTION_NONE => 0
  | JOY_ACTION_JOYSTICK => 1
  | JOY_ACTION_KEYBOARD => 2
  | JOY_ACTION_MAP => 3
  | JOY_ACTION_UI_ACTIVATE => 4
  | JOY_ACTION_UI_FUNCTION => 5
  | JOY_ACTION_POT_AXIS => 6
  end.

(** The cast [(joystick_action_t)n] followed by the range check
    [JOY_ACTION_NONE <= action <= JOY_ACTION_MAX]: [None] when the check
    fails. *)
Definition action_of_Z (n : Z) : option joystick_action_t :=
  match n with
  | 0 => Some JOY_ACTION_NONE
  | 1 => Some JOY_ACTION_JOYSTICK
  | 2 => Some JOY_ACTION_KEYBOARD
  | 3 => Some JOY_ACTION_MAP
  | 4 => Some JOY_ACTION_UI_ACTIVATE
  | 5 => Some JOY_ACTION_UI_FUNCTION
  | 6 => Some JOY_ACTION_POT_AXIS
  | _ => None
  end.

(** Modelled from the spec: [joystick_input_t] of the absent joystick.h
    (0 axis, 1 button, 2 hat in the mapping-file header; ball is the
    unsupported fourth kind [parser_set_ball] handles). *)
Inductive joystick_input_t :=
| JOY_INPUT_AXIS
| JOY_INPUT_BUTTON
| JOY_INPUT_HAT
| JOY_INPUT_BALL.

Definition input_to_Z (t : joystick_input_t) : Z :=
  match t with
  | JOY_INPUT_AXIS => 0
  | JOY_INPUT_BUTTON => 1
  | JOY_INPUT_HAT => 2
  | JOY_INPUT_BALL => 3
  end.

(** The cast to [joystick_input_t] followed by the range check
    [0 <= input_type <= JOY_INPUT_MAX]. *)
Definition input_of_Z (n : Z) : option joystick_input_t :=
  match n with
  | 0 => Some JOY_INPUT_AXIS
  | 1 => Some JOY_INPUT_BUTTON
  | 2 => Some JOY_INPUT_HAT
  | 3 => Some JOY_INPUT_BALL
  | _ => None
  end.

(** Modelled from the spec: [joystick_axis_value_t] of the absent
    joystick.h, the discretized direction of an axis. *)
Inductive joystick_axis_value_t :=
| JOY_AXIS_NEGATIVE
| JOY_AXIS_MIDDLE
| JOY_AXIS_POSITIVE.

Global Instance joystick_axis_value_eq_dec : EqDecision joystick_axis_value_t.
Proof. solve_decision. Defined.

Global Instance joystick_action_eq_dec : EqDecision joystick_action_t.
Proof. solve_decision. Defined.

(** Modelled from the spec: [joystick_mapping_t] of the absent joystick.h.
    The source keeps the payload in a union [value] with members
    [joy_pin], [key[3]] and [ui_action]; the code reads only the member
    its [action] selects, so the members are kept as separate fields. *)
Record joystick_mapping_t := {
  action : joystick_action_t;
  joy_pin : Z;
  key0 : Z;
  key1 : Z;
  key2 : Z;
  ui_action : Z
}.

Definition set_action (a : joystick_action_t) (m : joystick_mapping_t) :=
  {| action := a; joy_pin := joy_pin m; key0 := key0 m; key1 := key1 m;
     key2 := key2 m; ui_action := ui_action m |}.

Definition set_joy_pin (p : Z) (m : joystick_mapping_t) :=
  {| action := action m; joy_pin := p; key0 := key0 m; key1 := key1 m;
     key2 := key2 m; ui_action := ui_action m |}.

Definition set_key (r c f : Z) (m : joystick_mapping_t) :=
  {| action := action m; joy_pin := joy_pin m; key0 := r; key1 := c;
     key2 := f; ui_action := ui_action m |}.

Definition set_ui_action (u : Z) (m : joystick_mapping_t) :=
  {| action := action m; joy_pin := joy_pin m; key0 := key0 m; key1 := key1 m;
     key2 := key2 m; ui_action := u |}.

Record joystick_calibration_t := {
  invert : bool;
  threshold_negative : Z;
  threshold_positive : Z
}.

Record joystick_axis_t := {
  axis_code : Z;
  axis_name : string;
  axis_prev : joystick_axis_value_t;
  axis_index : Z;
  minimum : Z;
  maximum : Z;
  digital : bool;
  axis_calibration : joystick_calibration_t;
  negative : joystick_mapping_t;
  positive : joystick_mapping_t;
  pot : Z
}.

Record joystick_button_t := {
  button_code : Z;
  button_name : string;
  button_prev : Z;
  button_index : Z;
  button_mapping : joystick_mapping_t
}.

Record joystick_hat_t := {
  hat_code : Z;
  hat_name : string;
  hat_prev : Z;
  hat_index : Z;
  up : joystick_mapping_t;
  down : joystick_mapping_t;
  left : joystick_mapping_t;
  right : joystick_mapping_t
}.

(** [num_axes], [num_buttons] and [num_hats] are the lengths of the three
    collections. *)
Record joystick_device_t := {
  name : string;
  vendor : Z;
  product : Z;
  axes : list joystick_axis_t;
  buttons : list joystick_button_t;
  hats : list joystick_hat_t;
  disable_sort : bool;
  joyport : Z
}.

Definition num_axes (d : joystick_device_t) : Z := Z.of_nat (length (axes d)).
Definition num_buttons (d : joystick_device_t) : Z := Z.of_nat (length (buttons d)).
Definition num_hats (d : joystick_device_t) : Z := Z.of_nat (length (hats d)).

(** ** The input subsystem state *)

Record joystick_values_t := {
  last_used_joyport : Z;
  values : list Z
}.

(** Calls into the external collaborators (alarm, network event log,
    joyport, keyboard, UI, log, host driver), recorded in call order. *)
Inductive host_call :=
| alarm_set (clk : Z)
| network_event_joystick_delay (delay : Z)
| network_event_joystick_value (v : joystick_values_t)
| joyport_handle_joystick_hook (port : nat) (val : Z)
| keyboard_set_keyarr_any (row col value : Z)
| arch_ui_activate
| ui_action_trigger (id : Z)
| log_error (msg : string)
| log_warning (msg : string)
| log_message (msg : string)
| log_registered (joydev : joystick_device_t)
| driver_close (joydev : joystick_device_t)
| device_freed (joydev : joystick_device_t).

(** What the engine reads from the rest of the emulator;
    [fopen_write_fails] tells the files the host refuses to open for
    writing. *)
Record host_t := {
  event_playback_active : bool;
  network_connected : bool;
  maincpu_clk : Z;
  machine_get_cycles_per_frame : Z;
  machine_get_cycles_per_second : Z;
  fopen_write_fails : string → bool
}.

(** Constants and pure services of absent headers and collaborators:
    the array bounds of joyport.h, the UI action table of uiactions.h and
    the pseudo-random generator of lib.c ([lib_unsigned_rand seed lo hi]
    gives the draw and the next seed). *)
Class Host := {
  JOYPORT_MAX_PORTS : nat;
  JOYPORT_MAX_PINS : nat;
  ACTION_NONE : Z;
  lib_unsigned_rand : Z → Z → Z → Z * Z;
  ui_action_get_id : string → Z;
  ui_action_get_name : Z → option string
}.

(** The globals of joystick.c, the host environment, the files of the
    host, the trace of collaborator calls, and [dispatched], a ghost
    record of every invocation of [joy_perform_event].
    [joystick_devices] is [None] while the registry pointer is [NULL]. *)
Record state := {
  host : host_t;
  rand_seed : Z;
  files : gmap string string;
  trace : list host_call;
  joystick_value : list Z;
  latch_joystick_value : joystick_values_t;
  joystick_opposite_enable : Z;
  joystick_autofire_enable : list Z;
  joystick_autofire_mode : list Z;
  joystick_autofire_speed : list Z;
  joystick_hook : list Z;
  joystick_hook_mask : list Z;
  joystick_hook_state : list Z;
  gtkjoy_pins : list (list Z);
  joystick_devices : option (list joystick_device_t);
  customize : option (joystick_device_t → joystick_device_t);
  dispatched : list (joystick_mapping_t * Z * Z)
}.

Definition set_rand_seed (x : Z) (st : state) : state :=
  {| host := host st; rand_seed := x; files := files st; trace := trace st;
     joystick_value := joystick_value st;
     latch_joystick_value := latch_joystick_value st;
     joystick_opposite_enable := joystick_opposite_enable st;
     joystick_autofire_enable := joystick_autofire_enable st;
     joystick_autofire_mode := joystick_autofire_mode st;
     joystick_autofire_speed := joystick_autofire_speed st;
     joystick_hook := joystick_hook st;
     joystick_hook_mask := joystick_hook_mask st;
     joystick_hook_state := joystick_hook_state st;
     gtkjoy_pins := gtkjoy_pins st;
     joystick_devices := joystick_devices st;
     customize := customize st; dispatched := dispatched st |}.

Definition set_files (x : gmap string string) (st : state) : state :=
  {| host := host st; rand_seed := rand_seed st; files := x; trace := trace st;
     joystick_value := joystick_value st;
     latch_joystick_value := latch_joystick_value st;
     joystick_opposite_enable := joystick_opposite_enable st;
     joystick_autofire_enable := joystick_autofire_enable st;
     joystick_autofire_mode := joystick_autofire_mode st;
     joystick_autofire_speed := joystick_autofire_speed st;
     joystick_hook := joystick_hook st;
     joystick_hook_mask := joystick_hook_mask st;
     joystick_hook_state := joystick_hook_state st;
     gtkjoy_pins := gtkjoy_pins st;
     joystick_devices := joystick_devices st;
     customize := customize st; dispatched := dispatched st |}.

(** One call to a collaborator, appended to the trace. *)
Definition call (c : host_call) (st : state) : state :=
  {| host := host st; rand_seed := rand_seed st; files := files st;
     trace := trace st ++ [c];
     joystick_value := joystick_value st;
     latch_joystick_value := latch_joystick_value st;
     joystick_opposite_enable := joystick_opposite_enable st;
     joystick_autofire_enable := joystick_autofire_enable st;
     joystick_autofire_mode := joystick_autofire_mode st;
     joystick_autofire_speed := joystick_autofire_speed st;
     joystick_hook := joystick_hook st;
     joystick_hook_mask := joystick_hook_mask st;
     joystick_hook_state := joystick_hook_state st;
     gtkjoy_pins := gtkjoy_pins st;
     joystick_devices := joystick_devices st;
     customize := customize st; dispatched := dispatched st |}.

Definition set_joystick_value (x : list Z) (st : state) : state :=
  {| host := host st; rand_seed := rand_seed st; files := files st;
     trace := trace st;
     joystick_value := x;
     latch_joystick_value := latch_joystick_value st;
     joystick_opposite_enable := joystick_opposite_enable st;
     joystick_autofire_enable := joystick_autofire_enable st;
     joystick_autofire_mode := joystick_autofire_mode st;
     joystick_autofire_speed := joystick_autofire_speed st;
     joystick_hook := joystick_hook st;
     joystick_hook_mask := joystick_hook_mask st;
     joystick_hook_state := joystick_hook_state st;
     gtkjoy_pins := gtkjoy_pins st;
     joystick_devices := joystick_devices st;
     customize := customize st; dispatched := dispatched st |}.

Definition set_latch_joystick_value (x : joystick_values_t) (st : state) : state :=
  {| host := host st; rand_seed := rand_seed st; files := files st;
     trace := trace st;
     joystick_value := joystick_value st;
     latch_joystick_value := x;
     joystick_opposite_enable := joystick_opposite_enable st;
     joystick_autofire_enable := joystick_autofire_enable st;
     joystick_autofire_mode := joystick_autofire_mode st;
     joystick_autofire_speed := joystick_autofire_speed st;
     joystick_hook := joystick_hook st;
     joystick_hook_mask := joystick_hook_mask st;
     joystick_hook_state := joystick_hook_state st;
     gtkjoy_pins := gtkjoy_pins st;
     joystick_devices := joystick_devices st;
     customize := customize st; dispatched := dispatched st |}.

Definition set_joystick_hook_state (x : list Z) (st : state) : state :=
  {| host := host st; rand_seed := rand_seed st; files := files st;
     trace := trace st;
     joystick_value := joystick_value st;
     latch_joystick_value := latch_joystick_value st;
     joystick_opposite_enable := joystick_opposite_enable st;
     joystick_autofire_enable := joystick_autofire_enable st;
     joystick_autofire_mode := joystick_autofire_mode st;
     joystick_autofire_speed := joystick_autofire_speed st;
     joystick_hook := joystick_hook st;
     joystick_hook_mask := joystick_hook_mask st;
     joystick_hook_state := x;
     gtkjoy_pins := gtkjoy_pins st;
     joystick_devices := joystick_devices st;
     customize := customize st; dispatched := dispatched st |}.

Definition set_gtkjoy_pins (x : list (list Z)) (st : state) : state :=
  {| host := host st; rand_seed := rand_seed st; files := files st;
     trace := trace st;
     joystick_value := joystick_value st;
     latch_joystick_value := latch_joystick_value st;
     joystick_opposite_enable := joystick_opposite_enable st;
     joystick_autofire_enable := joystick_autofire_enable st;
     joystick_autofire_mode := joystick_autofire_mode st;
     joystick_autofire_speed := joystick_autofire_speed st;
     joystick_hook := joystick_hook st;
     joystick_hook_mask := joystick_hook_mask st;
     joystick_hook_state := joystick_hook_state st;
     gtkjoy_pins := x;
     joystick_devices := joystick_devices st;
     customize := customize st; dispatched := dispatched st |}.

Definition set_joystick_devices (x : option (list joystick_device_t)) (st : state) : state :=
  {| host := host st; rand_seed := rand_seed st; files := files st;
     trace := trace st;
     joystick_value := joystick_value st;
     latch_joystick_value := latch_joystick_value st;
     joystick_opposite_enable := joystick_opposite_enable st;
     joystick_autofire_enable := joystick_autofire_enable st;
     joystick_autofire_mode := joystick_autofire_mode st;
     joystick_autofire_speed := joystick_autofire_speed st;
     joystick_hook := joystick_hook st;
     joystick_hook_mask := joystick_hook_mask st;
     joystick_hook_state := joystick_hook_state st;
     gtkjoy_pins := gtkjoy_pins st;
     joystick_devices := x;
     customize := customize st; dispatched := dispatched st |}.

Definition set_dispatched (x : list (joystick_mapping_t * Z * Z)) (st : state) : state :=
  {| host := host st; rand_seed := rand_seed st; files := files st;
     trace := trace st;
     joystick_value := joystick_value st;
     latch_joystick_value := latch_joystick_value st;
     joystick_opposite_enable := joystick_opposite_enable st;
     joystick_autofire_enable := joystick_autofire_enable st;
     joystick_autofire_mode := joystick_autofire_mode st;
     joystick_autofire_speed := joystick_autofire_speed st;
     joystick_hook := joystick_hook st;
     joystick_hook_mask := joystick_hook_mask st;
     joystick_hook_state := joystick_hook_state st;
     gtkjoy_pins := gtkjoy_pins st;
     joystick_devices := joystick_devices st;
     customize := customize st; dispatched := x |}.

(** The latched value of a port, [latch_joystick_value.values[joyport]]. *)
Definition latched (st : state) (joyport : nat) : Z :=
  rd (values (latch_joystick_value st)) joyport.

(** The registered devices ([num_joystick_devices] of them). *)
Definition devices (st : state) : list joystick_device_t :=
  default [] (joystick_devices st).

Definition num_joystick_devices (st : state) : Z := Z.of_nat (length (devices st)).

Section Engine.
Context `{Host}.

(** ** Latch writes (joystick.c, lines 284-359) *)

Definition joystick_handle_hooks (joyport : nat) (st : state) : state :=
  if negb (rd (joystick_hook st) joyport =? 0) then
    let masked_old := Z.land (rd (joystick_hook_state st) joyport)
                             (rd (joystick_hook_mask st) joyport) in
    let masked_new := Z.land (latched st joyport)
                             (rd (joystick_hook_mask st) joyport) in
    if negb (masked_old =? masked_new) then
      let st := call (joyport_handle_joystick_hook joyport masked_new) st in
      set_joystick_hook_state (<[joyport:=masked_new]> (joystick_hook_state st)) st
    else st
  else st.

Definition joystick_process_latch (st : state) : state :=
  let '(delay, seed) :=
    lib_unsigned_rand (rand_seed st) 1
                      (uint32 (machine_get_cycles_per_frame (host st))) in
  let st := set_rand_seed seed st in
  if network_connected (host st) then
    let st := call (network_event_joystick_delay delay) st in
    call (network_event_joystick_value (latch_joystick_value st)) st
  else
    call (alarm_set (maincpu_clk (host st) + delay)) st.

(** [latch_joystick_value.values[joyport] = v]. *)
Definition set_latched (joyport : nat) (v : Z) (st : state) : state :=
  set_latch_joystick_value
    {| last_used_joyport := last_used_joyport (latch_joystick_value st);
       values := <[joyport:=v]> (values (latch_joystick_value st)) |} st.

(** [latch_joystick_value.last_used_joyport = joyport]. *)
Definition set_last_used_joyport (joyport : Z) (st : state) : state :=
  set_latch_joystick_value
    {| last_used_joyport := joyport;
       values := values (latch_joystick_value st) |} st.

Definition joystick_set_value_absolute (joyport : nat) (value : Z) (st : state) : state :=
  if event_playback_active (host st) then st
  else if negb (latched st joyport =? value) then
    let st := set_latched joyport value st in
    let st := set_last_used_joyport (Z.of_nat joyport) st in
    let st := joystick_process_latch st in
    joystick_handle_hooks joyport st
  else st.

(** set joystick bits *)
Definition joystick_set_value_or (joyport : nat) (value : Z) (st : state) : state :=
  if event_playback_active (host st) then st
  else
    let st := set_latched joyport (Z.lor (latched st joyport) value) st in
    let st :=
      if joystick_opposite_enable st =? 0 then
        set_latched joyport
          (Z.land (latched st joyport)
                  (uint16 (Z.lnot (rd joystick_opposite_direction
                                      (Z.to_nat (Z.land value 0xf)))))) st
      else st in
    let st := set_last_used_joyport (Z.of_nat joyport) st in
    let st := joystick_process_latch st in
    joystick_handle_hooks joyport st.

(** release joystick bits *)
Definition joystick_set_value_and (joyport : nat) (value : Z) (st : state) : state :=
  if event_playback_active (host st) then st
  else
    let st := set_latched joyport (Z.land (latched st joyport) value) st in
    let st := set_last_used_joyport (Z.of_nat joyport) st in
    let st := joystick_process_latch st in
    joystick_handle_hooks joyport st.

(** ** Autofire and the read path (joystick.c, lines 381-420) *)

(** [None] is the division by zero of the source (speed 0, or fewer
    cycles per second than twice the speed). *)
Definition get_joystick_autofire (index : nat) (st : state) : option Z :=
  let cps := machine_get_cycles_per_second (host st) in
  let speed2 := rd (joystick_autofire_speed st) index * 2 in
  if (cps =? 0) || (speed2 =? 0) then None
  else
    let second_cycles := uint32 (maincpu_clk (host st) mod cps) in
    let cycles_per_flip := uint32 (cps / speed2) in
    if cycles_per_flip =? 0 then None
    else
      let flip_part := second_cycles / cycles_per_flip in
      if negb (Z.land flip_part 1 =? 0) then Some 0 else Some 1.

Definition get_joystick_value (index : nat) (st : state) : option Z :=
  let retval := Z.land (rd (joystick_value st) index) 0xffef in
  let fire_button := JOYPORT_BIT_BOOL (rd (joystick_value st) index) JOYPORT_FIRE_BIT in
  fire_button ←
    (if negb (rd (joystick_autofire_enable st) index =? 0) then
       if rd (joystick_autofire_mode st) index =? JOYSTICK_AUTOFIRE_MODE_PERMANENT then
         if fire_button =? 0 then get_joystick_autofire index st
         else Some fire_button
       else
         if negb (fire_button =? 0) then get_joystick_autofire index st
         else Some fire_button
     else Some fire_button);
  Some (Z.lor retval (if negb (fire_button =? 0) then JOYPORT_FIRE else 0)).

(** ** Press counting and dispatch (joystick.c, lines 2964-3039) *)

(** When a host joystick event happens that cause a 'press' of a pin,
    increment the 'press amount' of that pin. *)
Definition gtkjoy_set_value_press (joyport : nat) (value : Z) (st : state) : state :=
  let st :=
    foldl (λ st i,
             if negb (Z.land value (Z.shiftl 1 (Z.of_nat i)) =? 0) then
               set_gtkjoy_pins
                 (wr2 (gtkjoy_pins st) joyport i (rd2 (gtkjoy_pins st) joyport i + 1)) st
             else st)
          st (seq 0 JOYPORT_MAX_PINS) in
  joystick_set_value_or joyport value st.

(** When a host joystick event happens that cause a 'release' of a pin,
    decrement the 'press amount' of that pin, and only release the pin
    for real if the 'press amount' is 0. *)
Definition gtkjoy_set_value_release (joyport : nat) (value : Z) (st : state) : state :=
  foldl (λ st i,
           if negb (Z.land value (Z.shiftl 1 (Z.of_nat i)) =? 0) then
             let st :=
               if rd2 (gtkjoy_pins st) joyport i >? 0 then
                 set_gtkjoy_pins
                   (wr2 (gtkjoy_pins st) joyport i (rd2 (gtkjoy_pins st) joyport i - 1)) st
               else st in
             if rd2 (gtkjoy_pins st) joyport i =? 0 then
               joystick_set_value_and joyport (uint16 (Z.lnot value)) st
             else st
           else st)
        st (seq 0 JOYPORT_MAX_PINS).

(** [value] is the [pressed] argument of the source; the ghost field
    [dispatched] records the invocation. The [JOY_ACTION_UI_FUNCTION] case
    of the source has no [break] and falls into the empty
    [JOY_ACTION_NONE]/default case. *)
Definition joy_perform_event (event : joystick_mapping_t) (joyport : Z) (value : Z)
    (st : state) : state :=
  let st := set_dispatched (dispatched st ++ [(event, joyport, value)]) st in
  match action event with
  | JOY_ACTION_JOYSTICK =>
      if (0 <=? joyport) && (joyport <? Z.of_nat JOYPORT_MAX_PORTS) then
        if negb (value =? 0) then
          gtkjoy_set_value_press (Z.to_nat joyport) (joy_pin event) st
        else
          gtkjoy_set_value_release (Z.to_nat joyport) (joy_pin event) st
      else st
  | JOY_ACTION_KEYBOARD =>
      call (keyboard_set_keyarr_any (key0 event) (key1 event) value) st
  | JOY_ACTION_UI_ACTIVATE =>
      if (0 <=? joyport) && (joyport <? Z.of_nat JOYPORT_MAX_PORTS) then
        if negb (value =? 0) then call arch_ui_activate st else st
      else st
  | JOY_ACTION_UI_FUNCTION =>
      if (0 <=? joyport) && (joyport <? Z.of_nat JOYPORT_MAX_PORTS) then
        if negb (value =? 0) && (ui_action event >? ACTION_NONE) then
          call (ui_action_trigger (ui_action event)) st
        else st
      else st
  | _ => st
  end.

End Engine.

(** ** Field updates of inputs and devices *)

Definition set_axis_prev (p : joystick_axis_value_t) (a : joystick_axis_t) :=
  {| axis_code := axis_code a; axis_name := axis_name a; axis_prev := p;
     axis_index := axis_index a; minimum := minimum a; maximum := maximum a;
     digital := digital a; axis_calibration := axis_calibration a;
     negative := negative a; positive := positive a; pot := pot a |}.

Definition set_axis_index (i : Z) (a : joystick_axis_t) :=
  {| axis_code := axis_code a; axis_name := axis_name a; axis_prev := axis_prev a;
     axis_index := i; minimum := minimum a; maximum := maximum a;
     digital := digital a; axis_calibration := axis_calibration a;
     negative := negative a; positive := positive a; pot := pot a |}.

Definition set_negative (m : joystick_mapping_t) (a : joystick_axis_t) :=
  {| axis_code := axis_code a; axis_name := axis_name a; axis_prev := axis_prev a;
     axis_index := axis_index a; minimum := minimum a; maximum := maximum a;
     digital := digital a; axis_calibration := axis_calibration a;
     negative := m; positive := positive a; pot := pot a |}.

Definition set_positive (m : joystick_mapping_t) (a : joystick_axis_t) :=
  {| axis_code := axis_code a; axis_name := axis_name a; axis_prev := axis_prev a;
     axis_index := axis_index a; minimum := minimum a; maximum := maximum a;
     digital := digital a; axis_calibration := axis_calibration a;
     negative := negative a; positive := m; pot := pot a |}.

Definition set_pot (p : Z) (a : joystick_axis_t) :=
  {| axis_code := axis_code a; axis_name := axis_name a; axis_prev := axis_prev a;
     axis_index := axis_index a; minimum := minimum a; maximum := maximum a;
     digital := digital a; axis_calibration := axis_calibration a;
     negative := negative a; positive := positive a; pot := p |}.

Definition set_button_prev (p : Z) (b : joystick_button_t) :=
  {| button_code := button_code b; button_name := button_name b; button_prev := p;
     button_index := button_index b; button_mapping := button_mapping b |}.

Definition set_button_index (i : Z) (b : joystick_button_t) :=
  {| button_code := button_code b; button_name := button_name b;
     button_prev := button_prev b; button_index := i;
     button_mapping := button_mapping b |}.

Definition set_button_mapping (m : joystick_mapping_t) (b : joystick_button_t) :=
  {| button_code := button_code b; button_name := button_name b;
     button_prev := button_prev b; button_index := button_index b;
     button_mapping := m |}.

Definition set_hat_prev (p : Z) (h : joystick_hat_t) :=
  {| hat_code := hat_code h; hat_name := hat_name h; hat_prev := p;
     hat_index := hat_index h; up := up h; down := down h; left := left h;
     right := right h |}.

Definition set_hat_index (i : Z) (h : joystick_hat_t) :=
  {| hat_code := hat_code h; hat_name := hat_name h; hat_prev := hat_prev h;
     hat_index := i; up := up h; down := down h; left := left h;
     right := right h |}.

Definition set_up (m : joystick_mapping_t) (h : joystick_hat_t) :=
  {| hat_code := hat_code h; hat_name := hat_name h; hat_prev := hat_prev h;
     hat_index := hat_index h; up := m; down := down h; left := left h;
     right := right h |}.

Definition set_down (m : joystick_mapping_t) (h : joystick_hat_t) :=
  {| hat_code := hat_code h; hat_name := hat_name h; hat_prev := hat_prev h;
     hat_index := hat_index h; up := up h; down := m; left := left h;
     right := right h |}.

Definition set_left (m : joystick_mapping_t) (h : joystick_hat_t) :=
  {| hat_code := hat_code h; hat_name := hat_name h; hat_prev := hat_prev h;
     hat_index := hat_index h; up := up h; down := down h; left := m;
     right := right h |}.

Definition set_right (m : joystick_mapping_t) (h : joystick_hat_t) :=
  {| hat_code := hat_code h; hat_name := hat_name h; hat_prev := hat_prev h;
     hat_index := hat_index h; up := up h; down := down h; left := left h;
     right := m |}.

Definition set_name (n : string) (d : joystick_device_t) :=
  {| name := n; vendor := vendor d; product := product d; axes := axes d;
     buttons := buttons d; hats := hats d; disable_sort := disable_sort d;
     joyport := joyport d |}.

Definition set_axes (l : list joystick_axis_t) (d : joystick_device_t) :=
  {| name := name d; vendor := vendor d; product := product d; axes := l;
     buttons := buttons d; hats := hats d; disable_sort := disable_sort d;
     joyport := joyport d |}.

Definition set_buttons (l : list joystick_button_t) (d : joystick_device_t) :=
  {| name := name d; vendor := vendor d; product := product d; axes := axes d;
     buttons := l; hats := hats d; disable_sort := disable_sort d;
     joyport := joyport d |}.

Definition set_hats (l : list joystick_hat_t) (d : joystick_device_t) :=
  {| name := name d; vendor := vendor d; product := product d; axes := axes d;
     buttons := buttons d; hats := l; disable_sort := disable_sort d;
     joyport := joyport d |}.

(** In-place updates through the pointers [joystick_devices[d]],
    [joydev->axes[a]], [joydev->buttons[b]] and [joydev->hats[h]]. *)
Definition update_device (d : nat) (f : joystick_device_t → joystick_device_t)
    (st : state) : state :=
  set_joystick_devices (alter f d <$> joystick_devices st) st.

Definition update_axis (d a : nat) (f : joystick_axis_t → joystick_axis_t) : state → state :=
  update_device d (λ joydev, set_axes (alter f a (axes joydev)) joydev).

Definition update_button (d b : nat) (f : joystick_button_t → joystick_button_t) : state → state :=
  update_device d (λ joydev, set_buttons (alter f b (buttons joydev)) joydev).

Definition update_hat (d h : nat) (f : joystick_hat_t → joystick_hat_t) : state → state :=
  update_device d (λ joydev, set_hats (alter f h (hats joydev)) joydev).

Section Events.
Context `{Host}.

(** ** Host event handlers (joystick.c, lines 3047-3194)

    A pointer to an input is its position in the registry: device [d],
    input [a]; the handlers fail ([None]) on a position that holds no
    input. [axis->device->joyport] is the [joyport] of device [d]. *)

(** The discretized direction [joy_axis_event] computes from the raw
    value. *)
Definition axis_direction (axis : joystick_axis_t) (value : Z) : joystick_axis_value_t :=
  if digital axis then
    let value := if invert (axis_calibration axis) then int32 (value * -1) else value in
    if value <? 0 then JOY_AXIS_NEGATIVE
    else if value >? 0 then JOY_AXIS_POSITIVE
    else JOY_AXIS_MIDDLE
  else
    let value :=
      if invert (axis_calibration axis) then
        let range := uint32 (maximum axis - minimum axis) in
        let range := if range <? UINT32_MAX then range + 1 else range in
        let center := int32 (maximum axis - range / 2) in
        int32 (center - value)
      else value in
    if value <=? threshold_negative (axis_calibration axis) then JOY_AXIS_NEGATIVE
    else if value >=? threshold_positive (axis_calibration axis) then JOY_AXIS_POSITIVE
    else JOY_AXIS_MIDDLE.

Definition joy_axis_event (d a : nat) (value : Z) (st : state) : option state :=
  joydev ← devices st !! d;
  axis ← axes joydev !! a;
  let direction := axis_direction axis value in
  let prev := axis_prev axis in
  let joyport := joyport joydev in
  if decide (direction = prev) then Some st
  else
    (* release directions first if needed *)
    let st := if decide (prev = JOY_AXIS_POSITIVE)
              then joy_perform_event (positive axis) joyport 0 st else st in
    let st := if decide (prev = JOY_AXIS_NEGATIVE)
              then joy_perform_event (negative axis) joyport 0 st else st in
    (* press new direction if needed *)
    let st := if decide (direction = JOY_AXIS_POSITIVE)
              then joy_perform_event (positive axis) joyport 1 st else st in
    let st := if decide (direction = JOY_AXIS_NEGATIVE)
              then joy_perform_event (negative axis) joyport 1 st else st in
    Some (update_axis d a (set_axis_prev direction) st).

Definition joy_button_event (d b : nat) (value : Z) (st : state) : option state :=
  joydev ← devices st !! d;
  button ← buttons joydev !! b;
  let pressed := if negb (value =? 0) then 1 else 0 in
  if negb (value =? button_prev button) then
    let st := joy_perform_event (button_mapping button) (joyport joydev) pressed st in
    Some (update_button d b (set_button_prev value) st)
  else Some st.

(** [x & mask] as a C truth value. *)
Definition has (x mask : Z) : bool := negb (Z.land x mask =? 0).

Definition joy_hat_event (d h : nat) (value : Z) (st : state) : option state :=
  joydev ← devices st !! d;
  hat ← hats joydev !! h;
  let joyport := joyport joydev in
  let prev := hat_prev hat in
  if value =? prev then Some st
  else
    (* release directions first if needed *)
    let st := if has prev JOYSTICK_DIRECTION_UP && negb (has value JOYSTICK_DIRECTION_UP)
              then joy_perform_event (up hat) joyport 0 st else st in
    let st := if has prev JOYSTICK_DIRECTION_DOWN && negb (has value JOYSTICK_DIRECTION_DOWN)
              then joy_perform_event (down hat) joyport 0 st else st in
    let st := if has prev JOYSTICK_DIRECTION_LEFT && negb (has value JOYSTICK_DIRECTION_LEFT)
              then joy_perform_event (left hat) joyport 0 st else st in
    let st := if has prev JOYSTICK_DIRECTION_RIGHT && negb (has value JOYSTICK_DIRECTION_RIGHT)
              then joy_perform_event (right hat) joyport 0 st else st in
    (* press new direction if needed *)
    let st := if negb (has prev JOYSTICK_DIRECTION_UP) && has value JOYSTICK_DIRECTION_UP
              then joy_perform_event (up hat) joyport 1 st else st in
    let st := if negb (has prev JOYSTICK_DIRECTION_DOWN) && has value JOYSTICK_DIRECTION_DOWN
              then joy_perform_event (down hat) joyport 1 st else st in
    let st := if negb (has prev JOYSTICK_DIRECTION_LEFT) && has value JOYSTICK_DIRECTION_LEFT
              then joy_perform_event (left hat) joyport 1 st else st in
    let st := if negb (has prev JOYSTICK_DIRECTION_RIGHT) && has value JOYSTICK_DIRECTION_RIGHT
              then joy_perform_event (right hat) joyport 1 st else st in
    Some (update_hat d h (set_hat_prev value) st).

End Events.

(** ** The C library on strings

    A C string is a [string]; a pointer into a buffer is the suffix it
    points to. *)

Definition nl : string := String "010"%char "".

Definition isspace (c : ascii) : bool :=
  let n := nat_of_ascii c in
  ((n =? 32) || ((9 <=? n) && (n <=? 13)))%nat.

Definition isdigit (c : ascii) : bool :=
  let n := nat_of_ascii c in ((48 <=? n) && (n <=? 57))%nat.

Definition isalpha (c : ascii) : bool :=
  let n := nat_of_ascii c in
  (((65 <=? n) && (n <=? 90)) || ((97 <=? n) && (n <=? 122)))%nat.

Definition isalnum (c : ascii) : bool := isalpha c || isdigit c.

(** Modelled from the spec: [util_skip_whitespace] of the absent util.c,
    which advances over leading white space. *)
Fixpoint util_skip_whitespace (s : string) : string :=
  match s with
  | String c s' => if isspace c then util_skip_whitespace s' else s
  | EmptyString => EmptyString
  end.

(** The digits [strtol] consumes, accumulated in base 10. *)
Fixpoint parse_digits (acc : Z) (s : string) : Z * string :=
  match s with
  | String c s' =>
      if isdigit c then parse_digits (acc * 10 + (Z.of_nat (nat_of_ascii c) - 48)) s'
      else (acc, s)
  | EmptyString => (acc, s)
  end.

Definition LONG_MAX : Z := 9223372036854775807.
Definition LONG_MIN : Z := -9223372036854775808.

(** [strtol(text, &endptr, 10)] with a 64-bit [long]: the value and
    [endptr], or [None] when no digits were found ([endptr == text]). *)
Definition strtol (text : string) : option (Z * string) :=
  let s := util_skip_whitespace text in
  let '(neg, s) :=
    match s with
    | String "-"%char s' => (true, s')
    | String "+"%char s' => (false, s')
    | _ => (false, s)
    end in
  match s with
  | String c _ =>
      if isdigit c then
        let '(v, rest) := parse_digits 0 s in
        let v := if neg : bool then - v else v in
        Some (Z.max LONG_MIN (Z.min LONG_MAX v), rest)
      else None
  | EmptyString => None
  end.

(** The decimal digits [printf] writes for a number [n >= 0]. *)
Fixpoint decimal_fuel (fuel : nat) (n : Z) : string :=
  match fuel with
  | O => String (ascii_of_nat (48 + Z.to_nat (n mod 10))) ""
  | S fuel =>
      if n <? 10 then String (ascii_of_nat (48 + Z.to_nat n)) ""
      else decimal_fuel fuel (n / 10) +:+ String (ascii_of_nat (48 + Z.to_nat (n mod 10))) ""
  end.

Definition decimal (n : Z) : string := decimal_fuel (Z.to_nat (Z.log2 n)) n.

(** [printf] conversions [%i] / [%d] and [%u] of an [int] argument, and
    [%s] (glibc prints a null pointer as [(null)]). *)
Definition fmt_i (n : Z) : string :=
  if n <? 0 then "-" +:+ decimal (- n) else decimal n.

Definition fmt_u (n : Z) : string := decimal (uint32 n).

Definition fmt_s (s : option string) : string := default "(null)" s.

(** The C string held by a buffer: the characters before the first NUL. *)
Fixpoint c_str (s : string) : string :=
  match s with
  | String c s' => if Ascii.eqb c "000" then "" else String c (c_str s')
  | EmptyString => ""
  end.

(** [if ((p = strchr(buffer, c))) *p = 0]: the buffer cut at the first
    [c]. *)
Fixpoint cut_at (c : ascii) (s : string) : string :=
  match s with
  | String c' s' => if Ascii.eqb c' c then "" else String c' (cut_at c s')
  | EmptyString => ""
  end.

(** [buffer[len - 1u] = 0]: the buffer without its last character. *)
Fixpoint drop_last (s : string) : string :=
  match s with
  | String c EmptyString => ""
  | String c s' => String c (drop_last s')
  | EmptyString => ""
  end.

(** [fgets(buffer, n + 1, fp)]: at most [n] characters, up to and
    including the first newline; the buffer read and the rest of the
    file. The buffer is empty exactly at end of file, where [fgets]
    returns [NULL]. *)
Fixpoint fgets (n : nat) (fp : string) : string * string :=
  match n, fp with
  | S n', String c fp' =>
      if Ascii.eqb c "010" then (String c "", fp')
      else let '(buffer, rest) := fgets n' fp' in (String c buffer, rest)
  | _, _ => ("", fp)
  end.

(** The blanks [joy_arch_mapping_load] skips at the beginning of a line. *)
Definition is_blank (c : ascii) : bool := Ascii.eqb c " " || Ascii.eqb c "009".

(** The first token of [strtok(s, delim)], [None] when there is none. *)
Fixpoint strtok_skip (delim : ascii → bool) (s : string) : string :=
  match s with
  | String c s' => if delim c then strtok_skip delim s' else s
  | EmptyString => ""
  end.

Fixpoint strtok_token (delim : ascii → bool) (s : string) : string :=
  match s with
  | String c s' => if delim c then "" else String c (strtok_token delim s')
  | EmptyString => ""
  end.

Definition strtok (delim : ascii → bool) (s : string) : option string :=
  match strtok_skip delim s with
  | EmptyString => None
  | s' => Some (strtok_token delim s')
  end.

(** ** Mapping file serializer (joystick.c, lines 1303-1449) *)

Definition mapping_dump_header : string :=
  "# VICE joystick mapping file" +:+ nl +:+
  "#" +:+ nl +:+
  "# A joystick map is read in as patch to the current map." +:+ nl +:+
  "#" +:+ nl +:+
  "# File format:" +:+ nl +:+
  "# - comment lines start with '#'" +:+ nl +:+
  "# - keyword lines start with '!keyword'" +:+ nl +:+
  "# - normal line has 'joynum inputtype inputindex action'" +:+ nl +:+
  "#" +:+ nl +:+
  "# Keywords and their lines are:" +:+ nl +:+
  "# '!CLEAR'    clear all mappings" +:+ nl +:+
  "#" +:+ nl +:+
  "# inputtype:" +:+ nl +:+
  "# 0      axis" +:+ nl +:+
  "# 1      button" +:+ nl +:+
  "# 2      hat" +:+ nl +:+
  "#" +:+ nl +:+
  "# For buttons, inputindex is the zero-based index of the button." +:+ nl +:+
  "# For hats: hat 0 has inputindex 0,1,2,3 respectively for up, down, left and right. Hat 1 has 5,6,7,8 etc." +:+ nl +:+
  "# For axes, and action 1 (joystick) and 2 (keyboard): axis 0 has inputindex 0,1 respectively for positive and negative, axis 1 has 2,3 etc." +:+ nl +:+
  "# For axes, and action 6 (pot axis): inputindex is the zero-based index of the axis." +:+ nl +:+
  "#" +:+ nl +:+
  "# action [action_parameters]:" +:+ nl +:+
  "# 0               none" +:+ nl +:+
  "# 1 pin           joystick (pin: 1/2/4/8/16/32/64 = u/d/l/r/fire/fire2/fire3)" +:+ nl +:+
  "# 2 row col       keyboard" +:+ nl +:+
  "# 3               map" +:+ nl +:+
  "# 4               UI activate" +:+ nl +:+
  "# 5 action-name   UI function" +:+ nl +:+
  "# 6 pot           potentiometer (1=pot x, 2=pot y)" +:+ nl +:+
  "#" +:+ nl +:+ nl.

Section Serializer.
Context `{Host}.

(** Dump mapping of host controller input to emulator input. *)
Definition mapping_dump_map (device_index : Z) (input_type : joystick_input_t)
    (map_index : Z) (map : joystick_mapping_t) : string :=
  fmt_i device_index +:+ " " +:+ fmt_u (input_to_Z input_type) +:+ " " +:+
  fmt_i map_index +:+ " " +:+ fmt_u (action_to_Z (action map)) +:+
  match action map with
  | JOY_ACTION_JOYSTICK => " " +:+ fmt_i (joy_pin map)
  | JOY_ACTION_KEYBOARD => " " +:+ fmt_i (key0 map) +:+ " " +:+ fmt_i (key1 map)
  | JOY_ACTION_UI_FUNCTION => " " +:+ fmt_s (ui_action_get_name (ui_action map))
  | _ => ""
  end +:+ nl.

(** The loop over the axes of a device, from axis [inp_idx] on
    ([row] is [2 * inp_idx]). *)
Fixpoint dump_axes (dev_idx inp_idx row : Z) (l : list joystick_axis_t) : string :=
  match l with
  | [] => ""
  | axis :: l' =>
      (if pot axis >? 0 then
         fmt_i dev_idx +:+ " " +:+ fmt_i (input_to_Z JOY_INPUT_AXIS) +:+ " " +:+
         fmt_i inp_idx +:+ " " +:+ fmt_i (action_to_Z JOY_ACTION_POT_AXIS) +:+ " " +:+
         fmt_u (pot axis) +:+ nl
       else
         mapping_dump_map dev_idx JOY_INPUT_AXIS (row + 0) (positive axis) +:+
         mapping_dump_map dev_idx JOY_INPUT_AXIS (row + 1) (negative axis)) +:+
      nl +:+ dump_axes dev_idx (inp_idx + 1) (row + 2) l'
  end.

Fixpoint dump_buttons (dev_idx inp_idx : Z) (l : list joystick_button_t) : string :=
  match l with
  | [] => ""
  | button :: l' =>
      mapping_dump_map dev_idx JOY_INPUT_BUTTON inp_idx (button_mapping button) +:+
      dump_buttons dev_idx (inp_idx + 1) l'
  end.

(** indexes 0-3 are hardcoded to up, down, left and right *)
Fixpoint dump_hats (dev_idx row : Z) (l : list joystick_hat_t) : string :=
  match l with
  | [] => ""
  | hat :: l' =>
      mapping_dump_map dev_idx JOY_INPUT_HAT (row + 0) (up hat) +:+
      mapping_dump_map dev_idx JOY_INPUT_HAT (row + 1) (down hat) +:+
      mapping_dump_map dev_idx JOY_INPUT_HAT (row + 2) (left hat) +:+
      mapping_dump_map dev_idx JOY_INPUT_HAT (row + 3) (right hat) +:+
      dump_hats dev_idx (row + 4) l'
  end.

(** The loop over the devices, from device [dev_idx] on. *)
Fixpoint dump_devices (dev_idx : Z) (l : list joystick_device_t) : string :=
  match l with
  | [] => ""
  | joydev :: l' =>
      "# " +:+ name joydev +:+ nl +:+
      dump_axes dev_idx 0 0 (axes joydev) +:+
      dump_buttons dev_idx 0 (buttons joydev) +:+ nl +:+
      dump_hats dev_idx 0 (hats joydev) +:+
      (* avoid printing newlines at end of dump *)
      match l' with [] => "" | _ => nl +:+ nl end +:+
      dump_devices (dev_idx + 1) l'
  end.

(** Everything [joy_arch_mapping_dump] prints to the file. *)
Definition mapping_dump_text (st : state) : string :=
  mapping_dump_header +:+ "!CLEAR" +:+ nl +:+ nl +:+ dump_devices 0 (devices st).

End Serializer.

(** ** Mapping file parser (joystick.c, lines 1452-2031) *)

(** Parser state object. The union [args] of the source is kept as
    separate fields; [p_filename] and [p_lineno] serve the error
    messages. *)
Record parser_state_t := {
  p_filename : string;
  p_lineno : Z;
  bufptr : string;
  joy_index : Z;
  input_type : joystick_input_t;
  input_index : Z;
  p_action : joystick_action_t;
  args_pin : Z;
  args_pot : Z;
  args_ui_action_id : Z;
  args_key_row : Z;
  args_key_column : Z;
  args_key_flags : Z
}.

(** Parse text for integer literal: the [int] value and [endptr]. *)
Definition parse_int (text : string) : option (Z * string) :=
  match strtol text with
  | None => None
  | Some (v, endptr) => Some (int32 v, endptr)
  end.

(** Parse at most [num] whitespace separated integer literals: the values
    parsed and [endptr]. *)
Fixpoint parse_int_args (text : string) (num : nat) : list Z * string :=
  match num with
  | O => ([], text)
  | S num' =>
      let s := util_skip_whitespace text in
      match parse_int s with
      | None => ([], s)
      | Some (val, endptr) =>
          let '(vals, endptr') := parse_int_args endptr num' in
          (val :: vals, endptr')
      end
  end.

(** The characters of a UI action name after its first. *)
Definition is_action_name_char (c : ascii) : bool :=
  isalnum c || Ascii.eqb c "_" || Ascii.eqb c "-" || Ascii.eqb c ":".

(** The loop of [joy_arch_parse_entry] that copies the action name,
    at most [n] characters. *)
Fixpoint scan_action_name (n : nat) (s : string) : string :=
  match n, s with
  | S n', String c s' =>
      if is_action_name_char c then String c (scan_action_name n' s') else ""
  | _, _ => ""
  end.

Definition joy_arch_keyword_clear (st : state) : state :=
  set_joystick_devices
    (fmap (M := list)
       (λ joydev,
          set_hats
            (fmap (M := list)
               (λ hat,
                  set_right (set_action JOY_ACTION_NONE (right hat))
                    (set_left (set_action JOY_ACTION_NONE (left hat))
                       (set_down (set_action JOY_ACTION_NONE (down hat))
                          (set_up (set_action JOY_ACTION_NONE (up hat)) hat))))
               (hats joydev))
            (set_buttons
               (fmap (M := list)
                  (λ button,
                     set_button_mapping
                       (set_action JOY_ACTION_NONE (button_mapping button)) button)
                  (buttons joydev))
               (set_axes
                  (fmap (M := list)
                     (λ axis,
                        set_negative (set_action JOY_ACTION_NONE (negative axis))
                          (set_positive (set_action JOY_ACTION_NONE (positive axis)) axis))
                     (axes joydev))
                  joydev)))
       <$> joystick_devices st) st.

(** [strtok] returns [NULL] on a line that holds only [!]; the source
    passes it to [strcmp], which is undefined, and the state is left as it
    is here. *)
Definition joy_arch_parse_keyword (buffer : string) (st : state) : state :=
  match buffer with
  | String _ rest =>
      match strtok (λ c, Ascii.eqb c " " || Ascii.eqb c "009" || Ascii.eqb c ":") rest with
      | Some key => if String.eqb key "CLEAR" then joy_arch_keyword_clear st else st
      | None => st
      end
  | EmptyString => st
  end.

(** Log parser error: [log_error(joy_log, "%s:%d: %s", ...)]. *)
Definition parser_log_error (filename : string) (lineno : Z) (message : string)
    (st : state) : state :=
  call (log_error (filename +:+ ":" +:+ fmt_i lineno +:+ ": " +:+ message)) st.

(** Set a host controller to joystick mapping. *)
Definition parser_set_mapping (ps : parser_state_t) (mapping : joystick_mapping_t)
    : joystick_mapping_t :=
  let mapping := set_action (p_action ps) mapping in
  match p_action ps with
  | JOY_ACTION_NONE | JOY_ACTION_MAP | JOY_ACTION_UI_ACTIVATE =>
      (* no arguments required *)
      mapping
  | JOY_ACTION_JOYSTICK => set_joy_pin (args_pin ps) mapping
  | JOY_ACTION_KEYBOARD =>
      set_key (args_key_row ps) (args_key_column ps) (args_key_flags ps) mapping
  | JOY_ACTION_UI_FUNCTION => set_ui_action (args_ui_action_id ps) mapping
  | JOY_ACTION_POT_AXIS =>
      (* already handled in axis code *)
      mapping
  end.

(** In the three setters [joydev] is [joystick_devices[state->joy_index]],
    which the caller has range-checked. *)
Definition parser_set_axis (ps : parser_state_t) (joydev : joystick_device_t)
    (st : state) : bool * state :=
  let d := Z.to_nat (joy_index ps) in
  let '(result, st) :=
    if decide (p_action ps = JOY_ACTION_POT_AXIS) then
      (* map to potentiometer *)
      if input_index ps <? num_axes joydev then
        (true, update_axis d (Z.to_nat (input_index ps)) (set_pot (args_pot ps)) st)
      else (false, st)
    else
      (* map to axis direction *)
      let index := input_index ps / 2 in
      let direction := input_index ps mod 2 in
      if index <? num_axes joydev then
        (true,
         update_axis d (Z.to_nat index)
           (λ axis,
              if direction =? 0
              then set_positive (parser_set_mapping ps (positive axis)) axis
              else set_negative (parser_set_mapping ps (negative axis)) axis) st)
      else (false, st) in
  if negb result then
    (result,
     parser_log_error (p_filename ps) (p_lineno ps)
       ("input index " +:+ fmt_i (input_index ps) +:+
        " too large for input type axis (pot), joystick " +:+
        fmt_i (joy_index ps) +:+ ".") st)
  else (result, st).

Definition parser_set_button (ps : parser_state_t) (joydev : joystick_device_t)
    (st : state) : bool * state :=
  let index := input_index ps in
  if index <? num_buttons joydev then
    (true,
     update_button (Z.to_nat (joy_index ps)) (Z.to_nat index)
       (λ button, set_button_mapping (parser_set_mapping ps (button_mapping button)) button)
       st)
  else
    (false,
     parser_log_error (p_filename ps) (p_lineno ps)
       ("invalid button index " +:+ fmt_i index +:+ " for joystick " +:+
        fmt_i (joy_index ps) +:+ ".") st).

Definition parser_set_hat (ps : parser_state_t) (joydev : joystick_device_t)
    (st : state) : bool * state :=
  let index := input_index ps / 4 in
  let direction := input_index ps mod 4 in
  if index <? num_hats joydev then
    (true,
     update_hat (Z.to_nat (joy_index ps)) (Z.to_nat index)
       (λ hat,
          match direction with
          | 0 => set_up (parser_set_mapping ps (up hat)) hat
          | 1 => set_down (parser_set_mapping ps (down hat)) hat
          | 2 => set_left (parser_set_mapping ps (left hat)) hat
          | _ => set_right (parser_set_mapping ps (right hat)) hat
          end) st)
  else
    (false,
     parser_log_error (p_filename ps) (p_lineno ps)
       ("invalid hat index " +:+ fmt_i index +:+ ".") st).

(** Currently unimplemented, logs error and returns false. *)
Definition parser_set_ball (ps : parser_state_t) (st : state) : bool * state :=
  (false,
   parser_log_error (p_filename ps) (p_lineno ps)
     "balls are currently not supported." st).

Section Parser.
Context `{Host}.

(** The tail of [joy_arch_parse_entry]: handle axis, button or hat. *)
Definition parser_set_input (ps : parser_state_t) (st : state) : bool * state :=
  match devices st !! Z.to_nat (joy_index ps) with
  | Some joydev =>
      match input_type ps with
      | JOY_INPUT_AXIS => parser_set_axis ps joydev st
      | JOY_INPUT_BUTTON => parser_set_button ps joydev st
      | JOY_INPUT_HAT => parser_set_hat ps joydev st
      | JOY_INPUT_BALL => parser_set_ball ps st
      end
  | None => (false, st)
  end.

(** The parser state after the four mandatory columns; the members of
    the union [args] that the action does not set are left 0. *)
Definition parser_state_init (filename : string) (lineno : Z) (bufptr : string)
    (joy_index : Z) (input_type : joystick_input_t) (input_index : Z)
    (action : joystick_action_t) : parser_state_t :=
  {| p_filename := filename; p_lineno := lineno; bufptr := bufptr;
     joy_index := joy_index; input_type := input_type; input_index := input_index;
     p_action := action; args_pin := 0; args_pot := 0; args_ui_action_id := 0;
     args_key_row := 0; args_key_column := 0; args_key_flags := 0 |}.

Definition with_pin (pin : Z) (ps : parser_state_t) : parser_state_t :=
  {| p_filename := p_filename ps; p_lineno := p_lineno ps; bufptr := bufptr ps;
     joy_index := joy_index ps; input_type := input_type ps;
     input_index := input_index ps; p_action := p_action ps;
     args_pin := pin; args_pot := args_pot ps;
     args_ui_action_id := args_ui_action_id ps; args_key_row := args_key_row ps;
     args_key_column := args_key_column ps; args_key_flags := args_key_flags ps |}.

Definition with_pot (pot : Z) (ps : parser_state_t) : parser_state_t :=
  {| p_filename := p_filename ps; p_lineno := p_lineno ps; bufptr := bufptr ps;
     joy_index := joy_index ps; input_type := input_type ps;
     input_index := input_index ps; p_action := p_action ps;
     args_pin := args_pin ps; args_pot := pot;
     args_ui_action_id := args_ui_action_id ps; args_key_row := args_key_row ps;
     args_key_column := args_key_column ps; args_key_flags := args_key_flags ps |}.

Definition with_ui_action_id (id : Z) (ps : parser_state_t) : parser_state_t :=
  {| p_filename := p_filename ps; p_lineno := p_lineno ps; bufptr := bufptr ps;
     joy_index := joy_index ps; input_type := input_type ps;
     input_index := input_index ps; p_action := p_action ps;
     args_pin := args_pin ps; args_pot := args_pot ps;
     args_ui_action_id := id; args_key_row := args_key_row ps;
     args_key_column := args_key_column ps; args_key_flags := args_key_flags ps |}.

Definition with_key (row column flags : Z) (ps : parser_state_t) : parser_state_t :=
  {| p_filename := p_filename ps; p_lineno := p_lineno ps; bufptr := bufptr ps;
     joy_index := joy_index ps; input_type := input_type ps;
     input_index := input_index ps; p_action := p_action ps;
     args_pin := args_pin ps; args_pot := args_pot ps;
     args_ui_action_id := args_ui_action_id ps; args_key_row := row;
     args_key_column := column; args_key_flags := flags |}.

(** The additional columns of [joy_arch_parse_entry], depending on the
    action: the completed parser state or the error message. *)
Definition parser_action_args (ps : parser_state_t) : parser_state_t + string :=
  let bufptr := util_skip_whitespace (bufptr ps) in
  match p_action ps with
  | JOY_ACTION_JOYSTICK =>
      (* joystick pin *)
      match parse_int bufptr with
      | None => inr "missing joystick pin number."
      | Some (itmp, _) =>
          if (itmp <? 0) || (itmp >? UINT16_MAX)
          then inr ("pin number " +:+ fmt_i itmp +:+ " out of bounds.")
          else inl (with_pin (uint16 itmp) ps)
      end
  | JOY_ACTION_KEYBOARD =>
      (* emulated keyboard press *)
      let '(key_args, _) := parse_int_args bufptr 3 in
      match key_args with
      | row :: column :: rest =>
          inl (with_key row column (match rest with flags :: _ => flags | [] => 0 end) ps)
      | _ =>
          inr ("incomplete argument list for key press, got " +:+
               fmt_i (Z.of_nat (length key_args)) +:+ " argument(s), expected 2 or 3.")
      end
  | JOY_ACTION_UI_FUNCTION =>
      (* trigger UI action with controller *)
      match bufptr with
      | EmptyString => inr "missing UI action name"
      | String c rest =>
          if negb (isalpha c) then inr ("invalid UI action name: " +:+ bufptr)
          else
            let action_name := String c (scan_action_name 255 rest) in
            let id := ui_action_get_id action_name in
            if id <=? ACTION_NONE then inr ("invalid action '" +:+ action_name +:+ "'")
            else inl (with_ui_action_id id ps)
      end
  | JOY_ACTION_POT_AXIS =>
      (* map axis to potentiometer *)
      match parse_int bufptr with
      | None => inr "missing potentiometer number."
      | Some (pot, _) => inl (with_pot pot ps)
      end
  | _ => inl ps
  end.

(** Parse a single line of a joymap file; [true] on success. *)
Definition joy_arch_parse_entry (buffer filename : string) (lineno : Z) (st : state)
    : bool * state :=
  let '(args, endptr) := parse_int_args buffer 4 in
  let err := λ message, (false, parser_log_error filename lineno message st) in
  (* joystick index (leading whitespace is already trimmed here) *)
  match args with
  | [] => err "missing joystick number."
  | joy_index :: args =>
  if (joy_index <? 0) || (joy_index >=? num_joystick_devices st)
  then err ("could not find joystick " +:+ fmt_i joy_index +:+ ".") else
  (* input type *)
  match args with
  | [] => err "missing input type."
  | input_type :: args =>
  match input_of_Z input_type with
  | None => err ("invalid input type " +:+ fmt_i input_type +:+ ".")
  | Some input_type =>
  (* input index *)
  match args with
  | [] => err "missing input type."
  | input_index :: args =>
  if input_index <? 0 then err "input index cannot be negative." else
  (* joystick action number *)
  match args with
  | [] => err "missing action number."
  | action :: _ =>
  match action_of_Z action with
  | None => err ("invalid action number " +:+ fmt_i action +:+ ".")
  | Some action =>
  (* four mandatory columns done *)
  match parser_action_args
          (parser_state_init filename lineno endptr joy_index input_type
                             input_index action) with
  | inr message => err message
  | inl ps => parser_set_input ps st
  end end end end end end end.

(** One pass of the loop body of [joy_arch_mapping_load] on a buffer
    [fgets] has filled; [None] is the [break] on an empty C string. *)
Definition load_buffer (buffer filename : string) (lineno : Z) (st : state)
    : option state :=
  let buffer := c_str buffer in
  if (String.length buffer =? 0)%nat then None
  else
    (* remove newline *)
    let buffer := drop_last buffer in
    (* remove comments *)
    let buffer := cut_at "#" buffer in
    (* remove whitespace at the beginning of the line *)
    let p := strtok_skip is_blank buffer in
    match p with
    | EmptyString => Some st
    | String "!"%char _ =>
        (* keyword handling *)
        Some (joy_arch_parse_keyword p st)
    | _ =>
        (* table entry handling *)
        Some (snd (joy_arch_parse_entry p filename lineno st))
    end.

(** The do-while loop of [joy_arch_mapping_load] on the unread part [fp]
    of the file. [fgets] reads at most [sizeof buffer - 2 = 998]
    characters; the loop ends when nothing is left to read. Every pass
    consumes at least one character, so [fuel] above the length of [fp] is
    never used up. *)
Fixpoint load_loop (fuel : nat) (fp filename : string) (lineno : Z) (st : state) : state :=
  match fuel with
  | O => st
  | S fuel =>
      match fp with
      | EmptyString => st
      | _ =>
          let '(buffer, fp) := fgets 998 fp in
          match load_buffer buffer filename lineno st with
          | None => st
          | Some st => load_loop fuel fp filename (lineno + 1) st
          end
      end
  end.

(** [sysfile_open] is modelled as a look-up of [filename] among the files
    of the host, [complete_path] being [filename]. *)
Definition joy_arch_mapping_load (filename : option string) (st : state) : Z * state :=
  (* Silently ignore keymap load on resource & cmdline init *)
  match joystick_devices st with
  | None => (0, st)
  | Some _ =>
      match filename with
      | None => (-1, st)
      | Some filename =>
          match files st !! filename with
          | None => (-1, call (log_warning ("Failed to open `" +:+ filename +:+ "'.")) st)
          | Some fp =>
              let st := call (log_message ("Loading joystick map `" +:+ filename +:+ "'.")) st in
              (0, load_loop (S (String.length fp)) fp filename 1 st)
          end
      end
  end.

Definition joy_arch_mapping_dump (filename : option string) (st : state) : Z * state :=
  match filename with
  | None => (-1, st)
  | Some filename =>
      if fopen_write_fails (host st) filename then (-1, st)
      else (0, set_files (<[filename:=mapping_dump_text st]> (files st)) st)
  end.

End Parser.

(** ** Snapshot modules (joystick.c, lines 2806-2853) *)

Definition DUMP_VER_MAJOR : Z := 1.
Definition DUMP_VER_MINOR : Z := 2.

(** Modelled from the spec: the snapshot module interface of the absent
    snapshot.c. A snapshot holds versioned modules keyed by name, each a
    sequence of bytes; [SMW_W] appends a 16-bit word, low byte first, and
    [SMR_W] reads one back. The write failures of the host are not
    modelled. *)
Record snapshot_module_t := {
  major_version : Z;
  minor_version : Z;
  data : list Z
}.

Definition snapshot_module_create (snapshot_name : string) (major minor : Z)
    : snapshot_module_t :=
  {| major_version := major; minor_version := minor; data := [] |}.

Definition SMW_W (m : snapshot_module_t) (w : Z) : snapshot_module_t :=
  {| major_version := major_version m; minor_version := minor_version m;
     data := data m ++ [Z.land w 0xff; Z.land (Z.shiftr w 8) 0xff] |}.

Definition SMR_W (m : snapshot_module_t) : option (Z * snapshot_module_t) :=
  match data m with
  | lo :: hi :: rest =>
      Some (Z.lor lo (Z.shiftl hi 8),
            {| major_version := major_version m; minor_version := minor_version m;
               data := rest |})
  | _ => None
  end.

Definition snapshot_version_is_equal (major minor major' minor' : Z) : bool :=
  (major =? major') && (minor =? minor').

(** The snapshot and the return value. *)
Definition joystick_snapshot_write_module (s : gmap string snapshot_module_t)
    (port : Z) (st : state) : Z * gmap string snapshot_module_t :=
  let snapshot_name := "JOYSTICK" +:+ fmt_i port in
  let m := snapshot_module_create snapshot_name DUMP_VER_MAJOR DUMP_VER_MINOR in
  let m := SMW_W m (rd (joystick_value st) (Z.to_nat port)) in
  (0, <[snapshot_name:=m]> s).

(** The word is stored at [joystick_value[port + 1]]; a store past the
    end of the array is undefined in C and dropped here. *)
Definition joystick_snapshot_read_module (s : gmap string snapshot_module_t)
    (port : Z) (st : state) : Z * state :=
  let snapshot_name := "JOYSTICK" +:+ fmt_i port in
  match s !! snapshot_name with
  | None => (-1, st)
  | Some m =>
      if negb (snapshot_version_is_equal (major_version m) (minor_version m)
                 DUMP_VER_MAJOR DUMP_VER_MINOR)
      then (-1, st)
      else
        match SMR_W m with
        | None => (-1, st)
        | Some (w, _) =>
            (0, set_joystick_value (<[Z.to_nat (port + 1):=w]> (joystick_value st)) st)
        end
  end.

(** ** Device registry (joystick.c, lines 3463-3737) *)

(** The name without its trailing white space. *)
Fixpoint rtrim (s : string) : string :=
  match s with
  | EmptyString => ""
  | String c s' =>
      match rtrim s' with
      | EmptyString => if isspace c then "" else String c ""
      | t => String c t
      end
  end.

(** Right-trim name and limit to 255 chars max. *)
Definition joystick_device_trim_name (joydev : joystick_device_t) : joystick_device_t :=
  let p := rtrim (name joydev) in
  set_name (if (255 <? String.length p)%nat then substring 0 255 p else p) joydev.

Definition joystick_mapping_pin (pin : Z) (m : joystick_mapping_t) : joystick_mapping_t :=
  set_joy_pin pin (set_action JOY_ACTION_JOYSTICK m).

(** Apply default minimal mapping to joystick device: the result, the
    device and the state (for the warnings). *)
Definition joystick_device_apply_default_mapping (joydev : joystick_device_t)
    (st : state) : bool * joystick_device_t * state :=
  let directions :=
    if num_hats joydev >? 0 then
      (* if the controller as a "hat", use that for joystick directions *)
      Some (set_hats
              (alter (λ hat,
                        set_right (joystick_mapping_pin JOYSTICK_DIRECTION_RIGHT (right hat))
                          (set_left (joystick_mapping_pin JOYSTICK_DIRECTION_LEFT (left hat))
                             (set_down (joystick_mapping_pin JOYSTICK_DIRECTION_DOWN (down hat))
                                (set_up (joystick_mapping_pin JOYSTICK_DIRECTION_UP (up hat)) hat))))
                     0%nat (hats joydev)) joydev)
    else if num_axes joydev >? 1 then
      Some (set_axes
              (alter (λ y,
                        set_positive (joystick_mapping_pin JOYSTICK_DIRECTION_DOWN (positive y))
                          (set_negative (joystick_mapping_pin JOYSTICK_DIRECTION_UP (negative y)) y))
                     1%nat
                     (alter (λ x,
                               set_positive (joystick_mapping_pin JOYSTICK_DIRECTION_RIGHT (positive x))
                                 (set_negative (joystick_mapping_pin JOYSTICK_DIRECTION_LEFT (negative x)) x))
                            0%nat (axes joydev))) joydev)
    else None in
  match directions with
  | None =>
      (false, joydev,
       call (log_warning
               "Controller has no hats nor at least two axes - could not apply default mapping.") st)
  | Some joydev =>
      (* Map the first three buttons to fire1, fire2 and fire3 *)
      if num_buttons joydev =? 0 then
        (false, joydev,
         call (log_warning "Controller has no buttons - could not apply default mapping.") st)
      else
        let fire := λ pin button,
          set_button_mapping (joystick_mapping_pin pin (button_mapping button)) button in
        let l := alter (fire JOYPORT_FIRE) 0%nat (buttons joydev) in
        let l := if num_buttons joydev >? 1 then alter (fire JOYPORT_FIRE_POTX) 1%nat l else l in
        let l := if num_buttons joydev >? 2 then alter (fire JOYPORT_FIRE_POTY) 2%nat l else l in
        (true, set_buttons l joydev, st)
  end.

(** [cmp_axes], [cmp_buttons] and [cmp_hats]: the order on event codes. *)
Definition cmp_axes (axis1 axis2 : joystick_axis_t) : Prop :=
  axis_code axis1 ≤ axis_code axis2.
Definition cmp_buttons (button1 button2 : joystick_button_t) : Prop :=
  button_code button1 ≤ button_code button2.
Definition cmp_hats (hat1 hat2 : joystick_hat_t) : Prop :=
  hat_code hat1 ≤ hat_code hat2.

Global Instance cmp_axes_dec : RelDecision cmp_axes.
Proof. intros a1 a2. unfold cmp_axes. apply _. Defined.
Global Instance cmp_buttons_dec : RelDecision cmp_buttons.
Proof. intros b1 b2. unfold cmp_buttons. apply _. Defined.
Global Instance cmp_hats_dec : RelDecision cmp_hats.
Proof. intros h1 h2. unfold cmp_hats. apply _. Defined.

(** Order axes, buttons and hats on event code. [qsort] leaves the order
    of inputs with equal codes unspecified; [merge_sort] stands for it. *)
Definition order_inputs_on_code (joydev : joystick_device_t) : joystick_device_t :=
  let axes' :=
    if num_axes joydev >? 1 then merge_sort cmp_axes (axes joydev) else axes joydev in
  let buttons' :=
    if num_buttons joydev >? 1 then merge_sort cmp_buttons (buttons joydev)
    else buttons joydev in
  let hats' :=
    if num_hats joydev >? 1 then merge_sort cmp_hats (hats joydev) else hats joydev in
  (* regenerate indexes of inputs *)
  set_hats (imap (λ i, set_hat_index (Z.of_nat i)) hats')
    (set_buttons (imap (λ i, set_button_index (Z.of_nat i)) buttons')
       (set_axes (imap (λ i, set_axis_index (Z.of_nat i)) axes') joydev)).

(** Register joystick device. The source calls [joy_driver.close]
    without a null check; the host driver is taken to provide it. A
    registration while the registry pointer is [NULL] writes through a
    null pointer in the source and leaves the registry [NULL] here. *)
Definition joystick_device_register (joydev : joystick_device_t) (st : state)
    : bool * state :=
  (* reject devices with too little inputs *)
  if negb (((num_axes joydev >=? 2) || (num_hats joydev >=? 1)) &&
           (num_buttons joydev >=? 1)) then
    (* close and free device *)
    let st := call (driver_close joydev) st in
    let st := call (device_freed joydev) st in
    (false, st)
  else
    let joydev := joystick_device_trim_name joydev in
    let joydev := if negb (disable_sort joydev) then order_inputs_on_code joydev
                  else joydev in
    (* Now we can try to apply a default mapping *)
    let '(_, joydev, st) := joystick_device_apply_default_mapping joydev st in
    (* Call custom mapping/calibration function if defined *)
    let joydev := match customize st with Some f => f joydev | None => joydev end in
    let st := set_joystick_devices ((λ l, (l ++ [joydev])%list) <$> joystick_devices st) st in
    (* log device registration *)
    let st := call (log_registered joydev) st in
    (true, st).

(** The minimum-input invariant of a registered device, in the words of
    the specification: at least one button and at least two axes or at
    least one hat. *)
Definition minimum_inputs (joydev : joystick_device_t) : Prop :=
  1 ≤ num_buttons joydev ∧ (2 ≤ num_axes joydev ∨ 1 ≤ num_hats joydev).

(** ** A sample host

    Eleven ports as the resources of joystick.c name them, twelve pins, a
    three-entry UI action table and a linear congruential generator. *)

Definition sample_ui_actions : list (string * Z) :=
  [("quit", 1); ("reset-soft", 2); ("monitor-open", 3)].

Definition sample_get_id (action_name : string) : Z :=
  default (-1) (snd <$> list_find (λ e, fst e = action_name) sample_ui_actions ≫=
                (λ e, Some (snd e))).

Definition sample_get_name (id : Z) : option string :=
  (λ e, fst (snd e)) <$> list_find (λ e, snd e = id) sample_ui_actions.

Definition sample_host : Host :=
  {| JOYPORT_MAX_PORTS := 11;
     JOYPORT_MAX_PINS := 12;
     ACTION_NONE := 0;
     lib_unsigned_rand := λ seed lo hi,
       (lo + seed mod (hi - lo + 1), (seed * 1103515245 + 12345) mod 2147483648);
     ui_action_get_id := sample_get_id;
     ui_action_get_name := sample_get_name |}.

Definition sample_env : host_t :=
  {| event_playback_active := false;
     network_connected := false;
     maincpu_clk := 0;
     machine_get_cycles_per_frame := 19656;
     machine_get_cycles_per_second := 985248;
     fopen_write_fails := λ _, false |}.

(** The state after start-up, before any device is registered. *)
Definition sample_state : state :=
  {| host := sample_env;
     rand_seed := 1;
     files := ∅;
     trace := [];
     joystick_value := replicate 11 0;
     latch_joystick_value :=
       {| last_used_joyport := 11; values := replicate 11 0 |};
     joystick_opposite_enable := 0;
     joystick_autofire_enable := replicate 11 0;
     joystick_autofire_mode := replicate 11 0;
     joystick_autofire_speed := replicate 11 10;
     joystick_hook := replicate 11 0;
     joystick_hook_mask := replicate 11 0;
     joystick_hook_state := replicate 11 0;
     gtkjoy_pins := replicate 11 (replicate 12 0);
     joystick_devices := Some [];
     customize := None;
     dispatched := [] |}.

Definition set_host (h : host_t) (st : state) : state :=
  {| host := h; rand_seed := rand_seed st; files := files st;
     trace := trace st;
     joystick_value := joystick_value st;
     latch_joystick_value := latch_joystick_value st;
     joystick_opposite_enable := joystick_opposite_enable st;
     joystick_autofire_enable := joystick_autofire_enable st;
     joystick_autofire_mode := joystick_autofire_mode st;
     joystick_autofire_speed := joystick_autofire_speed st;
     joystick_hook := joystick_hook st;
     joystick_hook_mask := joystick_hook_mask st;
     joystick_hook_state := joystick_hook_state st;
     gtkjoy_pins := gtkjoy_pins st;
     joystick_devices := joystick_devices st;
     customize := customize st; dispatched := dispatched st |}.

(** The sample host while an event recording is played back. *)
Definition playback_env : host_t :=
  {| event_playback_active := true;
     network_connected := false;
     maincpu_clk := 0;
     machine_get_cycles_per_frame := 19656;
     machine_get_cycles_per_second := 985248;
     fopen_write_fails := λ _, false |}.

Definition mapping_none : joystick_mapping_t :=
  {| action := JOY_ACTION_NONE; joy_pin := 0; key0 := 0; key1 := 0; key2 := 0;
     ui_action := 0 |}.

Definition mapping_pin (pin : Z) : joystick_mapping_t :=
  {| action := JOY_ACTION_JOYSTICK; joy_pin := pin; key0 := 0; key1 := 0; key2 := 0;
     ui_action := 0 |}.

Definition mapping_key (row column flags : Z) : joystick_mapping_t :=
  {| action := JOY_ACTION_KEYBOARD; joy_pin := 0; key0 := row; key1 := column;
     key2 := flags; ui_action := 0 |}.

Definition sample_calibration : joystick_calibration_t :=
  {| invert := false; threshold_negative := -16384; threshold_positive := 16383 |}.

Definition sample_axis (code : Z) (neg pos : joystick_mapping_t) (p : Z) : joystick_axis_t :=
  {| axis_code := code; axis_name := "axis"; axis_prev := JOY_AXIS_MIDDLE;
     axis_index := code; minimum := -32768; maximum := 32767; digital := false;
     axis_calibration := sample_calibration;
     negative := neg; positive := pos; pot := p |}.

Definition sample_button (code prev : Z) (m : joystick_mapping_t) : joystick_button_t :=
  {| button_code := code; button_name := "button"; button_prev := prev;
     button_index := code; button_mapping := m |}.

Definition sample_hat (code : Z) (u d l r : joystick_mapping_t) : joystick_hat_t :=
  {| hat_code := code; hat_name := "hat"; hat_prev := 0; hat_index := code;
     up := u; down := d; left := l; right := r |}.

Definition sample_device (n : string) (a : list joystick_axis_t)
    (b : list joystick_button_t) (h : list joystick_hat_t) : joystick_device_t :=
  {| name := n; vendor := 0x046d; product := 0xc216; axes := a; buttons := b;
     hats := h; disable_sort := false; joyport := 0 |}.

(** The arrays indexed by port and by pin have their declared sizes. *)
Definition ports_allocated `{Host} (st : state) : Prop :=
  length (values (latch_joystick_value st)) = JOYPORT_MAX_PORTS ∧
  length (joystick_value st) = JOYPORT_MAX_PORTS ∧
  length (gtkjoy_pins st) = JOYPORT_MAX_PORTS ∧
  Forall (λ row, length row = JOYPORT_MAX_PINS) (gtkjoy_pins st).

(** The autofire pattern in the words of the specification: the parity
    of [(cycle_counter mod cycles_per_second) /
    (cycles_per_second / (2 * autofire_speed))], even selecting pressed. *)
Definition autofire_pattern (cycle_counter cycles_per_second autofire_speed : Z) : bool :=
  Z.even ((cycle_counter mod cycles_per_second) /
          (cycles_per_second / (2 * autofire_speed))).

(** ** Auxiliary notions for the proofs *)

(** What a latch write leaves alone: everything but the latch, the
    hook state, the random seed and the trace of collaborator calls. *)
Definition same_config (st st' : state) : Prop :=
  host st' = host st ∧
  joystick_opposite_enable st' = joystick_opposite_enable st ∧
  gtkjoy_pins st' = gtkjoy_pins st ∧
  joystick_value st' = joystick_value st ∧
  joystick_devices st' = joystick_devices st ∧
  dispatched st' = dispatched st ∧
  customize st' = customize st ∧
  files st' = files st.

(** The value [joystick_set_value_or] leaves in the latch of the port. *)
Definition or_result (st : state) (joyport : nat) (value : Z) : Z :=
  if joystick_opposite_enable st =? 0 then
    Z.land (Z.lor (latched st joyport) value)
           (uint16 (Z.lnot (rd joystick_opposite_direction (Z.to_nat (Z.land value 0xf)))))
  else Z.lor (latched st joyport) value.


(** What the scenario keeps true from one dispatch to the next. *)
Definition live `{Host} (st : state) : Prop :=
  event_playback_active (host st) = false ∧ ports_allocated st.


(** ** Auxiliary notions for the mapping file *)




Section Lines.
Context `{Host}.



End Lines.

(** ** The dump as a list of lines, and what a reload gives *)


Section DumpLines.
Context `{Host}.














End DumpLines.

(** What [!CLEAR] leaves of an input. *)
Definition cleared_axis (axis : joystick_axis_t) : joystick_axis_t :=
  set_negative (set_action JOY_ACTION_NONE (negative axis))
    (set_positive (set_action JOY_ACTION_NONE (positive axis)) axis).

Definition cleared_button (button : joystick_button_t) : joystick_button_t :=
  set_button_mapping (set_action JOY_ACTION_NONE (button_mapping button)) button.

Definition cleared_hat (hat : joystick_hat_t) : joystick_hat_t :=
  set_right (set_action JOY_ACTION_NONE (right hat))
    (set_left (set_action JOY_ACTION_NONE (left hat))
       (set_down (set_action JOY_ACTION_NONE (down hat))
          (set_up (set_action JOY_ACTION_NONE (up hat)) hat))).

Definition cleared_device (joydev : joystick_device_t) : joystick_device_t :=
  set_hats (cleared_hat <$> hats joydev)
    (set_buttons (cleared_button <$> buttons joydev)
       (set_axes (cleared_axis <$> axes joydev) joydev)).














(** The registry replaced by [devs]. *)
Definition with_devices (devs : list joystick_device_t) (st : state) : state :=
  set_joystick_devices (Some devs) st.


Section ArgsText.
Context `{Host}.


End ArgsText.



Definition mapping_ui (id : Z) : joystick_mapping_t :=
  {| action := JOY_ACTION_UI_FUNCTION; joy_pin := 0; key0 := 0; key1 := 0; key2 := 0;
     ui_action := id |}.

(** A pad with two direction axes, three buttons (fire, a key, a UI
    function) and a hat, and a paddle whose axis drives potentiometer 1. *)
Definition sample_registry : list joystick_device_t :=
  [ sample_device "pad"
      [sample_axis 0 (mapping_pin JOYPAD_W) (mapping_pin JOYPAD_E) 0;
       sample_axis 1 (mapping_pin JOYPAD_N) (mapping_pin JOYPAD_S) 0]
      [sample_button 0 0 (mapping_pin JOYPAD_FIRE); sample_button 1 0 (mapping_key 7 4 0);
       sample_button 2 0 (mapping_ui 1)]
      [sample_hat 0 (mapping_pin JOYPAD_N) (mapping_pin JOYPAD_S) (mapping_pin JOYPAD_W)
         (mapping_pin JOYPAD_E)];
    sample_device "paddle" [sample_axis 0 mapping_none mapping_none 1]
      [sample_button 0 0 (mapping_pin JOYPAD_FIRE)] [] ].

(** * Properties *)

(** ** Bits *)

Lemma testbit_uint16_lnot (x : Z) (k : Z) :
  0 ≤ k < 16 → Z.testbit (uint16 (Z.lnot x)) k = negb (Z.testbit x k).
Proof.
  intros Hk. unfold uint16. change 65536 with (2 ^ 16).
  rewrite Z.mod_pow2_bits_low by lia. apply Z.lnot_spec. lia.
Qed.

Lemma land_shiftl_1_testbit (x : Z) (i : nat) :
  negb (Z.land x (Z.shiftl 1 (Z.of_nat i)) =? 0) = Z.testbit x (Z.of_nat i).
Proof.
  rewrite Z.shiftl_1_l.
  destruct (Z.testbit x (Z.of_nat i)) eqn:Hb.
  - apply negb_true_iff, Z.eqb_neq. intros Hz.
    assert (Z.testbit (Z.land x (2 ^ Z.of_nat i)) (Z.of_nat i) = true) as Ht.
    { rewrite Z.land_spec, Hb, Z.pow2_bits_true by lia. done. }
    rewrite Hz, Z.bits_0 in Ht. done.
  - apply negb_false_iff, Z.eqb_eq. apply Z.bits_inj'. intros n Hn.
    rewrite Z.land_spec, Z.bits_0.
    destruct (decide (n = Z.of_nat i)) as [->|Hne].
    + by rewrite Hb.
    + rewrite (Z.pow2_bits_false (Z.of_nat i) n) by lia. apply andb_false_r.
Qed.

Lemma testbit_shiftl_1 (i j : nat) :
  Z.testbit (Z.shiftl 1 (Z.of_nat i)) (Z.of_nat j) = bool_decide (i = j).
Proof.
  rewrite Z.shiftl_1_l. case_bool_decide as Hij.
  - subst. apply Z.pow2_bits_true. lia.
  - apply Z.pow2_bits_false. lia.
Qed.

(** The mask the table gives for a single pin never holds that pin. *)
Lemma opposite_direction_single_pin (i : nat) :
  (i < 16)%nat →
  Z.testbit (rd joystick_opposite_direction
               (Z.to_nat (Z.land (Z.shiftl 1 (Z.of_nat i)) 0xf))) (Z.of_nat i) = false.
Proof.
  intros Hi.
  do 16 (destruct i as [|i]; [vm_compute; reflexivity|]). lia.
Qed.

(** ** Frame properties of the latch writes *)

Section LatchFacts.
Context `{Host}.

Lemma same_config_refl st : same_config st st.
Proof. by repeat split. Qed.

Lemma same_config_trans st1 st2 st3 :
  same_config st1 st2 → same_config st2 st3 → same_config st1 st3.
Proof.
  unfold same_config. intros (?&?&?&?&?&?&?&?) (?&?&?&?&?&?&?&?).
  repeat split; congruence.
Qed.

Lemma joystick_handle_hooks_latch joyport st :
  latch_joystick_value (joystick_handle_hooks joyport st) = latch_joystick_value st ∧
  same_config st (joystick_handle_hooks joyport st).
Proof.
  unfold joystick_handle_hooks.
  destruct (negb _); [|split; [done|apply same_config_refl]].
  destruct (negb _); split; try done; try apply same_config_refl.
Qed.

Lemma joystick_process_latch_latch st :
  latch_joystick_value (joystick_process_latch st) = latch_joystick_value st ∧
  same_config st (joystick_process_latch st).
Proof.
  unfold joystick_process_latch.
  destruct (lib_unsigned_rand _ _ _) as [delay seed]. simpl.
  destruct (network_connected (host st)); split; try done; by repeat split.
Qed.

Lemma latched_set_latched joyport v st :
  (joyport < length (values (latch_joystick_value st)))%nat →
  latched (set_latched joyport v st) joyport = v.
Proof.
  intros Hlt. unfold latched, set_latched, rd. simpl.
  by rewrite list_lookup_insert_eq.
Qed.

Lemma latched_set_latched_ne joyport joyport' v st :
  joyport ≠ joyport' →
  latched (set_latched joyport v st) joyport' = latched st joyport'.
Proof.
  intros Hne. unfold latched, set_latched, rd. simpl.
  by rewrite list_lookup_insert_ne.
Qed.

Lemma length_set_latched joyport v st :
  length (values (latch_joystick_value (set_latched joyport v st))) =
  length (values (latch_joystick_value st)).
Proof. unfold set_latched. simpl. apply length_insert. Qed.

Lemma latched_ext st st' joyport :
  latch_joystick_value st' = latch_joystick_value st →
  latched st' joyport = latched st joyport.
Proof. unfold latched. by intros ->. Qed.

Lemma joystick_set_value_or_spec joyport value st :
  event_playback_active (host st) = false →
  (joyport < length (values (latch_joystick_value st)))%nat →
  let st' := joystick_set_value_or joyport value st in
  latched st' joyport = or_result st joyport value ∧
  (∀ joyport', joyport ≠ joyport' → latched st' joyport' = latched st joyport') ∧
  length (values (latch_joystick_value st')) = length (values (latch_joystick_value st)) ∧
  same_config st st'.
Proof.
  intros Hplay Hlt. unfold joystick_set_value_or. rewrite Hplay. cbv zeta.
  set (st1 := set_latched joyport (Z.lor (latched st joyport) value) st).
  set (st2 := if joystick_opposite_enable st1 =? 0 then _ else st1).
  set (st3 := set_last_used_joyport (Z.of_nat joyport) st2).
  destruct (joystick_process_latch_latch st3) as [Hl4 Hc4].
  destruct (joystick_handle_hooks_latch joyport (joystick_process_latch st3)) as [Hl5 Hc5].
  assert (latched st1 joyport = Z.lor (latched st joyport) value) as H1
    by (by apply latched_set_latched).
  assert (length (values (latch_joystick_value st1)) =
          length (values (latch_joystick_value st))) as Hlen1
    by apply length_set_latched.
  assert (∀ p, latched (joystick_handle_hooks joyport (joystick_process_latch st3)) p =
               latched st2 p) as Hst2.
  { intros p. rewrite (latched_ext _ _ p Hl5), (latched_ext _ _ p Hl4). done. }
  assert (same_config st st2) as Hc2.
  { subst st2. destruct (_ =? 0); by repeat split. }
  split; [|split; [|split]].
  - rewrite Hst2. unfold or_result. subst st2.
    change (joystick_opposite_enable st1) with (joystick_opposite_enable st).
    destruct (joystick_opposite_enable st =? 0).
    + rewrite latched_set_latched by lia. by rewrite H1.
    + apply H1.
  - intros joyport' Hne. rewrite Hst2. subst st2.
    destruct (joystick_opposite_enable st1 =? 0).
    + rewrite latched_set_latched_ne by done. by apply latched_set_latched_ne.
    + by apply latched_set_latched_ne.
  - rewrite Hl5, Hl4. change (values (latch_joystick_value st3)) with
      (values (latch_joystick_value st2)). subst st2.
    destruct (joystick_opposite_enable st1 =? 0);
      [rewrite length_set_latched|]; apply Hlen1.
  - eapply same_config_trans; [|apply Hc5].
    eapply same_config_trans; [|apply Hc4].
    eapply same_config_trans; [apply Hc2|]. by repeat split.
Qed.

Lemma joystick_set_value_and_spec joyport value st :
  event_playback_active (host st) = false →
  (joyport < length (values (latch_joystick_value st)))%nat →
  let st' := joystick_set_value_and joyport value st in
  latched st' joyport = Z.land (latched st joyport) value ∧
  (∀ joyport', joyport ≠ joyport' → latched st' joyport' = latched st joyport') ∧
  length (values (latch_joystick_value st')) = length (values (latch_joystick_value st)) ∧
  same_config st st'.
Proof.
  intros Hplay Hlt. unfold joystick_set_value_and. rewrite Hplay. cbv zeta.
  set (st1 := set_latched joyport (Z.land (latched st joyport) value) st).
  set (st3 := set_last_used_joyport (Z.of_nat joyport) st1).
  destruct (joystick_process_latch_latch st3) as [Hl4 Hc4].
  destruct (joystick_handle_hooks_latch joyport (joystick_process_latch st3)) as [Hl5 Hc5].
  assert (∀ p, latched (joystick_handle_hooks joyport (joystick_process_latch st3)) p =
               latched st1 p) as Hst1.
  { intros p. rewrite (latched_ext _ _ p Hl5), (latched_ext _ _ p Hl4). done. }
  split; [|split; [|split]].
  - rewrite Hst1. by apply latched_set_latched.
  - intros joyport' Hne. rewrite Hst1. by apply latched_set_latched_ne.
  - rewrite Hl5, Hl4. apply length_set_latched.
  - eapply same_config_trans; [|apply Hc5].
    eapply same_config_trans; [|apply Hc4]. by repeat split.
Qed.

End LatchFacts.

(** ** Event playback gates the latch writes *)

(** C10. While event playback is active, [joystick_set_value_absolute],
    [joystick_set_value_or] and [joystick_set_value_and] return at once
    and leave the whole state of the input subsystem as it was: no
    latched value changes, the last-used-port marker stays, and no latch
    update is scheduled (alarm) or recorded (network event), the trace of
    collaborator calls being part of the state. *)
Theorem playback_blocks_latch_writes `{Host} (st : state) (joyport : nat) (value : Z) :
  event_playback_active (host st) = true →
  joystick_set_value_absolute joyport value st = st ∧
  joystick_set_value_or joyport value st = st ∧
  joystick_set_value_and joyport value st = st.
Proof.
  intros Hplay.
  unfold joystick_set_value_absolute, joystick_set_value_or, joystick_set_value_and.
  by rewrite Hplay.
Qed.

Lemma playback_blocks_latch_writes_witness :
  let st := set_host playback_env sample_state in
  joystick_set_value_absolute (H := sample_host) 1 JOYPAD_FIRE st = st ∧
  joystick_set_value_or (H := sample_host) 1 JOYPAD_FIRE st = st ∧
  joystick_set_value_and (H := sample_host) 1 JOYPAD_FIRE st = st.
Proof.
  apply (playback_blocks_latch_writes (H := sample_host)). reflexivity.
Defined.

(** ** Opposite-direction masking *)

Lemma or_result_testbit (st : state) (joyport : nat) (value k : Z) :
  joystick_opposite_enable st = 0 → 0 ≤ k < 16 →
  Z.testbit (or_result st joyport value) k =
  (Z.testbit (latched st joyport) k || Z.testbit value k) &&
  negb (Z.testbit (rd joystick_opposite_direction (Z.to_nat (Z.land value 0xf))) k).
Proof.
  intros Hopp Hk. unfold or_result. rewrite Hopp, Z.eqb_refl.
  by rewrite Z.land_spec, Z.lor_spec, testbit_uint16_lnot.
Qed.

(** A press of [value] on a port, opposite directions not allowed: bit
    [set] of the value ends up set and bit [clr] cleared when the table
    masks [clr] for the value and not [set]. *)
Lemma direction_press `{Host} (st : state) (joyport : nat) (value set clr : Z) :
  event_playback_active (host st) = false →
  joystick_opposite_enable st = 0 →
  (joyport < length (values (latch_joystick_value st)))%nat →
  0 ≤ set < 16 → 0 ≤ clr < 16 →
  Z.testbit value set = true →
  Z.testbit (rd joystick_opposite_direction (Z.to_nat (Z.land value 0xf))) set = false →
  Z.testbit (rd joystick_opposite_direction (Z.to_nat (Z.land value 0xf))) clr = true →
  let st' := joystick_set_value_or joyport value st in
  Z.testbit (latched st' joyport) set = true ∧ Z.testbit (latched st' joyport) clr = false.
Proof.
  intros Hplay Hopp Hlt Hset Hclr Hv Hkeep Hmask.
  destruct (joystick_set_value_or_spec joyport value st Hplay Hlt) as (Hl & _).
  cbv zeta. rewrite Hl, !or_result_testbit by done.
  rewrite Hv, Hkeep, Hmask, orb_true_r. split; [done | apply andb_false_r].
Qed.

(** The conditions of [direction_press] survive a latch write. *)
Lemma joystick_set_value_or_keeps `{Host} (st : state) (joyport : nat) (value : Z) :
  event_playback_active (host st) = false →
  joystick_opposite_enable st = 0 →
  (joyport < length (values (latch_joystick_value st)))%nat →
  let st' := joystick_set_value_or joyport value st in
  event_playback_active (host st') = false ∧
  joystick_opposite_enable st' = 0 ∧
  (joyport < length (values (latch_joystick_value st')))%nat.
Proof.
  intros Hplay Hopp Hlt.
  destruct (joystick_set_value_or_spec joyport value st Hplay Hlt)
    as (_ & _ & Hlen & Hhost & Hopp1 & _).
  cbv zeta. rewrite Hhost, Hopp1, Hlen. done.
Qed.

(** C2 (amended). On every port, while event playback is not active and
    opposite directions are not allowed ([joystick_opposite_enable = 0]),
    [joystick_set_value_or] with left (0x04) and then with right (0x08)
    leaves right set and left cleared in the latched value, so the two are
    never set together; after the first call alone left is set and right
    cleared. The same holds for up (0x01) followed by down (0x02). *)
Theorem opposite_directions_masked `{Host} (st : state) (joyport : nat) :
  event_playback_active (host st) = false →
  joystick_opposite_enable st = 0 →
  ports_allocated st → (joyport < JOYPORT_MAX_PORTS)%nat →
  (let st1 := joystick_set_value_or joyport JOYPAD_W st in
   let st2 := joystick_set_value_or joyport JOYPAD_E st1 in
   (Z.testbit (latched st1 joyport) 2 = true ∧ Z.testbit (latched st1 joyport) 3 = false) ∧
   (Z.testbit (latched st2 joyport) 3 = true ∧ Z.testbit (latched st2 joyport) 2 = false)) ∧
  (let st1 := joystick_set_value_or joyport JOYPAD_N st in
   let st2 := joystick_set_value_or joyport JOYPAD_S st1 in
   (Z.testbit (latched st1 joyport) 0 = true ∧ Z.testbit (latched st1 joyport) 1 = false) ∧
   (Z.testbit (latched st2 joyport) 1 = true ∧ Z.testbit (latched st2 joyport) 0 = false)).
Proof.
  intros Hplay Hopp (Hlen & _) Hport.
  assert (joyport < length (values (latch_joystick_value st)))%nat as Hlt by lia.
  destruct (joystick_set_value_or_keeps st joyport JOYPAD_W Hplay Hopp Hlt) as (HpW & HoW & HlW).
  destruct (joystick_set_value_or_keeps st joyport JOYPAD_N Hplay Hopp Hlt) as (HpN & HoN & HlN).
  split; cbv zeta; (split; apply direction_press; done || lia).
Qed.

Lemma opposite_directions_masked_witness :
  let st1 := joystick_set_value_or (H := sample_host) 0 JOYPAD_N sample_state in
  let st2 := joystick_set_value_or (H := sample_host) 0 JOYPAD_S st1 in
  Z.testbit (latched st2 0) 1 = true ∧ Z.testbit (latched st2 0) 0 = false.
Proof.
  refine (proj2 (proj2 (opposite_directions_masked (H := sample_host) sample_state 0 _ _ _ _))).
  - reflexivity.
  - reflexivity.
  - repeat split. repeat constructor.
  - simpl. lia.
Defined.

(** C2 as stated fails while event playback is active: the two calls
    return at once, and right (0x08) is not set after the second. *)
Lemma opposite_directions_playback_counterexample :
  let st := set_host playback_env sample_state in
  let st' := joystick_set_value_or (H := sample_host) 0 JOYPAD_E
               (joystick_set_value_or (H := sample_host) 0 JOYPAD_W st) in
  joystick_opposite_enable st = 0 ∧ Z.testbit (latched st' 0) 3 = false.
Proof. split; reflexivity. Qed.

(** ** Press counting *)

Lemma foldl_id {A B} (f : A → B → A) (l : list B) (a : A) :
  (∀ a b, b ∈ l → f a b = a) → foldl f a l = a.
Proof.
  revert a. induction l as [|b l IH]; intros a Hf; [done|]. simpl.
  rewrite Hf by constructor. apply IH. intros a' b' Hb'. apply Hf. by constructor.
Qed.

(** A loop over [0 .. n-1] whose body acts at index [i] only. *)
Lemma foldl_seq_single {A} (f : A → nat → A) (g : A → A) (i n : nat) (a : A) :
  (i < n)%nat → (∀ a j, j ≠ i → f a j = a) → (∀ a, f a i = g a) →
  foldl f a (seq 0 n) = g a.
Proof.
  intros Hi Hne Heq.
  replace n with (i + S (n - S i))%nat by lia.
  rewrite seq_app, foldl_app. simpl.
  rewrite (foldl_id f (seq 0 i)), Heq.
  - apply foldl_id. intros a' j Hj. apply Hne.
    apply elem_of_seq in Hj. lia.
  - intros a' j Hj. apply Hne. apply elem_of_seq in Hj. lia.
Qed.

Lemma rd2_wr2 (a : list (list Z)) (p j : nat) (v : Z) :
  (p < length a)%nat → Forall (λ row, (j < length row)%nat) a →
  rd2 (wr2 a p j v) p j = v.
Proof.
  intros Hp Hrows. unfold rd2, wr2, rd.
  rewrite list_lookup_alter_eq.
  destruct (lookup_lt_is_Some_2 a p Hp) as [row Hrow]. rewrite Hrow. simpl.
  rewrite list_lookup_insert_eq; [done|].
  by apply (Forall_lookup_1 _ _ _ _ Hrows Hrow).
Qed.

Lemma wr2_shape (a : list (list Z)) (p j : nat) (v : Z) (n m : nat) :
  length a = n → Forall (λ row, length row = m) a →
  length (wr2 a p j v) = n ∧ Forall (λ row, length row = m) (wr2 a p j v).
Proof.
  intros Hn Hrows. unfold wr2. split; [by rewrite length_alter|].
  apply Forall_lookup_2. intros k row Hk.
  destruct (decide (p = k)) as [->|Hne].
  - rewrite list_lookup_alter_eq in Hk.
    destruct (a !! k) as [row0|] eqn:Hrow; [|done]. simpl in Hk.
    injection Hk as <-. rewrite length_insert.
    by apply (Forall_lookup_1 _ _ _ _ Hrows Hrow).
  - rewrite list_lookup_alter_ne in Hk by done.
    by apply (Forall_lookup_1 _ _ _ _ Hrows Hk).
Qed.

Section PressFacts.
Context `{Host}.

Lemma ports_allocated_pins st p j :
  ports_allocated st → (p < JOYPORT_MAX_PORTS)%nat → (j < JOYPORT_MAX_PINS)%nat →
  (p < length (gtkjoy_pins st))%nat ∧
  Forall (λ row : list Z, (j < length row)%nat) (gtkjoy_pins st).
Proof.
  intros (_ & _ & Hlen & Hrows) Hp Hj. split; [lia|].
  eapply Forall_impl; [apply Hrows|]. simpl. intros row ->. done.
Qed.

Lemma ports_allocated_set_pins st p j v :
  ports_allocated st →
  ports_allocated (set_gtkjoy_pins (wr2 (gtkjoy_pins st) p j v) st).
Proof.
  intros (Hv & Hjv & Hlen & Hrows).
  destruct (wr2_shape (gtkjoy_pins st) p j v _ _ Hlen Hrows) as [Hlen' Hrows'].
  by repeat split.
Qed.

Lemma ports_allocated_same_config st st' :
  length (values (latch_joystick_value st')) = length (values (latch_joystick_value st)) →
  same_config st st' → ports_allocated st → ports_allocated st'.
Proof.
  intros Hlen (_ & _ & Hpins & Hjv & _) (Hv & Hj & Hl & Hrows).
  unfold ports_allocated. rewrite Hlen, Hpins, Hjv. done.
Qed.

(** The press of a single pin [i]: its counter goes up by one and its bit
    is set in the latch. *)
Lemma gtkjoy_set_value_press_single st joyport i :
  event_playback_active (host st) = false →
  ports_allocated st →
  (joyport < JOYPORT_MAX_PORTS)%nat → (i < JOYPORT_MAX_PINS)%nat → (i < 16)%nat →
  let st' := gtkjoy_set_value_press joyport (Z.shiftl 1 (Z.of_nat i)) st in
  Z.testbit (latched st' joyport) (Z.of_nat i) = true ∧
  rd2 (gtkjoy_pins st') joyport i = rd2 (gtkjoy_pins st) joyport i + 1 ∧
  ports_allocated st' ∧
  host st' = host st.
Proof.
  intros Hplay Halloc Hport Hpin Hi. unfold gtkjoy_set_value_press.
  rewrite (foldl_seq_single _
             (λ st, set_gtkjoy_pins
                      (wr2 (gtkjoy_pins st) joyport i (rd2 (gtkjoy_pins st) joyport i + 1)) st)
             i); [|done| |].
  - set (st1 := set_gtkjoy_pins _ st).
    assert (ports_allocated st1) as Halloc1 by by apply ports_allocated_set_pins.
    destruct (joystick_set_value_or_spec joyport (Z.shiftl 1 (Z.of_nat i)) st1)
      as (Hl & _ & Hlen & Hcfg); [done|destruct Halloc1 as [-> _]; done|].
    cbv zeta. split; [|split; [|split]].
    + rewrite Hl. unfold or_result.
      destruct (joystick_opposite_enable st1 =? 0).
      * rewrite Z.land_spec, Z.lor_spec, testbit_shiftl_1, bool_decide_eq_true_2 by done.
        rewrite testbit_uint16_lnot by lia.
        rewrite opposite_direction_single_pin by done. by rewrite orb_true_r.
      * rewrite Z.lor_spec, testbit_shiftl_1, bool_decide_eq_true_2 by done.
        apply orb_true_r.
    + destruct Hcfg as (_ & _ & -> & _). subst st1. simpl.
      destruct (ports_allocated_pins st joyport i) as [? ?]; [done..|].
      by apply rd2_wr2.
    + by apply (ports_allocated_same_config st1).
    + by destruct Hcfg as (-> & _).
  - intros st0 j Hne. rewrite land_shiftl_1_testbit, testbit_shiftl_1.
    by rewrite bool_decide_eq_false_2.
  - intros st0. rewrite land_shiftl_1_testbit, testbit_shiftl_1.
    by rewrite bool_decide_eq_true_2.
Qed.

(** The release of a single pin [i]: its counter goes down by one unless
    it is 0 already; the latch is touched only when the counter is 0
    afterwards, and then bit [i] is cleared. *)
Lemma gtkjoy_set_value_release_single st joyport i :
  event_playback_active (host st) = false →
  ports_allocated st →
  (joyport < JOYPORT_MAX_PORTS)%nat → (i < JOYPORT_MAX_PINS)%nat → (i < 16)%nat →
  let st' := gtkjoy_set_value_release joyport (Z.shiftl 1 (Z.of_nat i)) st in
  let count := rd2 (gtkjoy_pins st) joyport i in
  rd2 (gtkjoy_pins st') joyport i = (if count >? 0 then count - 1 else count) ∧
  (rd2 (gtkjoy_pins st') joyport i = 0 →
   Z.testbit (latched st' joyport) (Z.of_nat i) = false) ∧
  (rd2 (gtkjoy_pins st') joyport i ≠ 0 →
   latch_joystick_value st' = latch_joystick_value st) ∧
  ports_allocated st' ∧
  host st' = host st.
Proof.
  intros Hplay Halloc Hport Hpin Hi. unfold gtkjoy_set_value_release.
  rewrite (foldl_seq_single _
    (λ st,
       let st :=
         if rd2 (gtkjoy_pins st) joyport i >? 0 then
           set_gtkjoy_pins
             (wr2 (gtkjoy_pins st) joyport i (rd2 (gtkjoy_pins st) joyport i - 1)) st
         else st in
       if rd2 (gtkjoy_pins st) joyport i =? 0 then
         joystick_set_value_and joyport (uint16 (Z.lnot (Z.shiftl 1 (Z.of_nat i)))) st
       else st) i); [|done| |].
  - cbv zeta.
    set (st1 := if rd2 (gtkjoy_pins st) joyport i >? 0 then _ else st).
    destruct (ports_allocated_pins st joyport i) as [Hp Hrows]; [done..|].
    assert (rd2 (gtkjoy_pins st1) joyport i =
            if rd2 (gtkjoy_pins st) joyport i >? 0
            then rd2 (gtkjoy_pins st) joyport i - 1 else rd2 (gtkjoy_pins st) joyport i) as Hcnt.
    { subst st1. destruct (_ >? 0); [|done]. simpl. by apply rd2_wr2. }
    assert (ports_allocated st1) as Halloc1.
    { subst st1. destruct (_ >? 0); [|done]. by apply ports_allocated_set_pins. }
    assert (host st1 = host st ∧ latch_joystick_value st1 = latch_joystick_value st)
      as [Hhost1 Hlatch1].
    { subst st1. by destruct (_ >? 0). }
    destruct (rd2 (gtkjoy_pins st1) joyport i =? 0) eqn:Hz.
    + destruct (joystick_set_value_and_spec joyport
                  (uint16 (Z.lnot (Z.shiftl 1 (Z.of_nat i)))) st1)
        as (Hl & _ & Hlen & Hcfg); [congruence|destruct Halloc1 as [-> _]; done|].
      cbv zeta in Hl, Hlen, Hcfg.
      assert (gtkjoy_pins (joystick_set_value_and joyport
                (uint16 (Z.lnot (Z.shiftl 1 (Z.of_nat i)))) st1) = gtkjoy_pins st1) as Hpins
        by (by destruct Hcfg as (_ & _ & -> & _)).
      rewrite Hpins. split; [done|]. split; [|split; [|split]].
      * intros _. rewrite Hl, Z.land_spec, testbit_uint16_lnot by lia.
        rewrite testbit_shiftl_1, bool_decide_eq_true_2 by done. apply andb_false_r.
      * apply Z.eqb_eq in Hz. done.
      * by apply (ports_allocated_same_config st1).
      * destruct Hcfg as (-> & _). done.
    + split; [done|]. split; [|split; [|split]]; try done.
      apply Z.eqb_neq in Hz. done.
  - intros st0 j Hne. rewrite land_shiftl_1_testbit, testbit_shiftl_1.
    by rewrite bool_decide_eq_false_2.
  - intros st0. rewrite land_shiftl_1_testbit, testbit_shiftl_1.
    by rewrite bool_decide_eq_true_2.
Qed.

End PressFacts.

Section Debouncing.
Context `{Host}.

Lemma joy_perform_event_joystick (event : joystick_mapping_t) (joyport : nat) (value : Z) st :
  action event = JOY_ACTION_JOYSTICK → (joyport < JOYPORT_MAX_PORTS)%nat →
  joy_perform_event event (Z.of_nat joyport) value st =
  let st := set_dispatched (dispatched st ++ [(event, Z.of_nat joyport, value)]) st in
  if negb (value =? 0) then gtkjoy_set_value_press joyport (joy_pin event) st
  else gtkjoy_set_value_release joyport (joy_pin event) st.
Proof.
  intros Hact Hport. unfold joy_perform_event. rewrite Hact, Nat2Z.id.
  replace ((0 <=? Z.of_nat joyport) && (Z.of_nat joyport <? Z.of_nat JOYPORT_MAX_PORTS))
    with true; [done|].
  symmetry. apply andb_true_iff. split; [apply Z.leb_le | apply Z.ltb_lt]; lia.
Qed.

Lemma perform_press_single (event : joystick_mapping_t) (joyport i : nat) st :
  live st → action event = JOY_ACTION_JOYSTICK →
  joy_pin event = Z.shiftl 1 (Z.of_nat i) →
  (joyport < JOYPORT_MAX_PORTS)%nat → (i < JOYPORT_MAX_PINS)%nat → (i < 16)%nat →
  let st' := joy_perform_event event (Z.of_nat joyport) 1 st in
  live st' ∧
  Z.testbit (latched st' joyport) (Z.of_nat i) = true ∧
  rd2 (gtkjoy_pins st') joyport i = rd2 (gtkjoy_pins st) joyport i + 1.
Proof.
  intros [Hplay Halloc] Hact Hpin Hport Hi Hi16.
  rewrite joy_perform_event_joystick by done. cbv zeta. simpl (negb _). cbv iota.
  rewrite Hpin.
  set (st0 := set_dispatched _ st).
  destruct (gtkjoy_set_value_press_single st0 joyport i) as (Hbit & Hcnt & Halloc' & Hhost);
    try done.
  split; [split; [by rewrite Hhost|done]|]. done.
Qed.

Lemma perform_release_single (event : joystick_mapping_t) (joyport i : nat) st :
  live st → action event = JOY_ACTION_JOYSTICK →
  joy_pin event = Z.shiftl 1 (Z.of_nat i) →
  (joyport < JOYPORT_MAX_PORTS)%nat → (i < JOYPORT_MAX_PINS)%nat → (i < 16)%nat →
  let st' := joy_perform_event event (Z.of_nat joyport) 0 st in
  let count := rd2 (gtkjoy_pins st) joyport i in
  live st' ∧
  rd2 (gtkjoy_pins st') joyport i = (if count >? 0 then count - 1 else count) ∧
  (rd2 (gtkjoy_pins st') joyport i = 0 →
   Z.testbit (latched st' joyport) (Z.of_nat i) = false) ∧
  (rd2 (gtkjoy_pins st') joyport i ≠ 0 →
   latch_joystick_value st' = latch_joystick_value st).
Proof.
  intros [Hplay Halloc] Hact Hpin Hport Hi Hi16.
  rewrite joy_perform_event_joystick by done. cbv zeta. simpl (negb _). cbv iota.
  rewrite Hpin.
  set (st0 := set_dispatched _ st).
  destruct (gtkjoy_set_value_release_single st0 joyport i)
    as (Hcnt & Hzero & Hkeep & Halloc' & Hhost); try done.
  split; [split; [by rewrite Hhost|done]|]. done.
Qed.

End Debouncing.

(** C1 (amended). On every port, while event playback is not active, for
    two controls A and B mapped to the emulated-joystick-pin action with
    the same single pin (bit [i], one of the [JOYPORT_MAX_PINS] counted
    pins): from a state where the press counter of the pin is 0, press(A),
    press(B) and release(A) each leave the pin bit set in the latched
    value, and the release(B) that follows clears it. In any state, the
    release of such a mapping clears the pin bit only when the press
    counter of the pin is 0 afterwards. (A press may still clear the
    opposite direction through opposite-direction masking, whatever the
    counter of that direction is.) *)
Theorem many_to_one_debouncing `{Host} (st : state) (joyport i : nat)
    (A B : joystick_mapping_t) :
  event_playback_active (host st) = false →
  ports_allocated st →
  (joyport < JOYPORT_MAX_PORTS)%nat → (i < JOYPORT_MAX_PINS)%nat → (i < 16)%nat →
  action A = JOY_ACTION_JOYSTICK → action B = JOY_ACTION_JOYSTICK →
  joy_pin A = Z.shiftl 1 (Z.of_nat i) → joy_pin B = Z.shiftl 1 (Z.of_nat i) →
  let port := Z.of_nat joyport in
  let bit := λ st, Z.testbit (latched st joyport) (Z.of_nat i) in
  let count := λ st, rd2 (gtkjoy_pins st) joyport i in
  (count st = 0 →
   let st1 := joy_perform_event A port 1 st in
   let st2 := joy_perform_event B port 1 st1 in
   let st3 := joy_perform_event A port 0 st2 in
   let st4 := joy_perform_event B port 0 st3 in
   bit st1 = true ∧ bit st2 = true ∧ bit st3 = true ∧ bit st4 = false) ∧
  (let st' := joy_perform_event A port 0 st in
   bit st = true → bit st' = false → count st' = 0).
Proof.
  intros Hplay Halloc Hport Hi Hi16 HA HB HpA HpB port bit count.
  assert (live st) as Hlive by done.
  split.
  - intros Hc0 st1 st2 st3 st4.
    destruct (perform_press_single A joyport i st) as (Hl1 & Hb1 & Hc1); try done.
    fold port st1 in Hl1, Hb1, Hc1.
    destruct (perform_press_single B joyport i st1) as (Hl2 & Hb2 & Hc2); try done.
    fold port st2 in Hl2, Hb2, Hc2.
    destruct (perform_release_single A joyport i st2) as (Hl3 & Hc3 & _ & Hk3); try done.
    fold port st3 in Hl3, Hc3, Hk3.
    destruct (perform_release_single B joyport i st3) as (Hl4 & Hc4 & Hz4 & _); try done.
    fold port st4 in Hl4, Hc4, Hz4.
    fold (count st) in Hc1. fold (count st1) in Hc1, Hc2. fold (count st2) in Hc2, Hc3.
    fold (count st3) in Hc3, Hc4, Hk3. fold (count st4) in Hc4, Hz4.
    assert (count st2 = 2) as E2 by lia.
    assert (count st3 = 1) as E3 by (rewrite Hc3, E2; done).
    assert (count st4 = 0) as E4 by (rewrite Hc4, E3; done).
    repeat split; try done.
    + unfold bit, latched. rewrite Hk3 by lia. apply Hb2.
    + by apply Hz4.
  - intros st' Hset Hclr.
    destruct (perform_release_single A joyport i st) as (_ & _ & _ & Hk); try done.
    fold port st' in Hk. fold (count st') in Hk.
    destruct (decide (count st' = 0)) as [|Hne]; [done|].
    unfold bit, latched in Hclr. rewrite Hk in Hclr by done.
    unfold bit, latched in Hset. congruence.
Qed.

Lemma many_to_one_debouncing_witness :
  let A := mapping_pin JOYPAD_FIRE in
  let B := mapping_key 0 0 0 in
  let B := set_joy_pin JOYPAD_FIRE (set_action JOY_ACTION_JOYSTICK B) in
  let fire := λ st, Z.testbit (latched st 1) 4 in
  let st1 := joy_perform_event (H := sample_host) A 1 1 sample_state in
  let st2 := joy_perform_event (H := sample_host) B 1 1 st1 in
  let st3 := joy_perform_event (H := sample_host) A 1 0 st2 in
  let st4 := joy_perform_event (H := sample_host) B 1 0 st3 in
  fire st1 = true ∧ fire st2 = true ∧ fire st3 = true ∧ fire st4 = false.
Proof.
  intros A B0 B.
  refine (proj1 (many_to_one_debouncing (H := sample_host) sample_state 1 4 A B
                   _ _ _ _ _ _ _ _ _) _).
  - reflexivity.
  - repeat split. repeat constructor.
  - simpl. lia.
  - simpl. lia.
  - lia.
  - reflexivity.
  - reflexivity.
  - reflexivity.
  - reflexivity.
  - reflexivity.
Defined.

(** C1 as stated fails in two designed ways. While event playback is
    active a press does not reach the latch: after press(A) the fire bit
    is still clear. And a pin bit is cleared although its press counter is
    not zero when the opposite direction is pressed: with left held by
    one control (counter 1, bit set), the press of right clears the left
    bit and leaves the counter of left at 1. *)
Lemma many_to_one_debouncing_counterexample :
  (let st := set_host playback_env sample_state in
   let st1 := joy_perform_event (H := sample_host) (mapping_pin JOYPAD_FIRE) 0 1 st in
   rd2 (gtkjoy_pins st) 0 4 = 0 ∧ Z.testbit (latched st 0) 4 = false ∧
   Z.testbit (latched st1 0) 4 = false) ∧
  (let st1 := joy_perform_event (H := sample_host) (mapping_pin JOYPAD_W) 0 1 sample_state in
   let st2 := joy_perform_event (H := sample_host) (mapping_pin JOYPAD_E) 0 1 st1 in
   Z.testbit (latched st1 0) 2 = true ∧ rd2 (gtkjoy_pins st1) 0 2 = 1 ∧
   Z.testbit (latched st2 0) 2 = false ∧ rd2 (gtkjoy_pins st2) 0 2 = 1).
Proof. split; repeat split; vm_compute; reflexivity. Qed.

(** ** Autofire *)

Lemma JOYPORT_BIT_BOOL_testbit (val : Z) :
  JOYPORT_BIT_BOOL val JOYPORT_FIRE_BIT = Z.b2z (Z.testbit val 4).
Proof.
  unfold JOYPORT_BIT_BOOL, JOYPORT_FIRE_BIT.
  change 1 with (Z.ones 1). rewrite Z.land_ones by lia.
  change (2 ^ 1) with 2. rewrite <- Z.bit0_mod, Z.shiftr_spec by lia. done.
Qed.

Lemma land_1_odd (x : Z) : negb (Z.land x 1 =? 0) = Z.odd x.
Proof.
  change 1 with (Z.ones 1). rewrite Z.land_ones by lia.
  change (2 ^ 1) with 2. rewrite <- Z.bit0_mod, Z.bit0_odd.
  by destruct (Z.odd x).
Qed.

Lemma get_joystick_autofire_pattern (st : state) (index : nat) :
  let clk := maincpu_clk (host st) in
  let cps := machine_get_cycles_per_second (host st) in
  let speed := rd (joystick_autofire_speed st) index in
  0 ≤ clk → 0 < cps < 4294967296 → 0 < speed → 2 * speed ≤ cps →
  get_joystick_autofire index st = Some (Z.b2z (autofire_pattern clk cps speed)).
Proof.
  intros clk cps speed Hclk Hcps Hspeed Hflip.
  unfold get_joystick_autofire, autofire_pattern. fold cps clk speed.
  destruct (Z.eqb_spec cps 0) as [|_]; [lia|].
  destruct (Z.eqb_spec (speed * 2) 0) as [|_]; [lia|]. simpl orb. cbv iota.
  assert (0 < cps / (speed * 2) ≤ cps) as Hq.
  { split; [apply Z.div_str_pos; lia|].
    apply Z.div_le_upper_bound; nia. }
  unfold uint32.
  rewrite (Z.mod_small (cps / _)) by lia.
  rewrite (Z.mod_small (clk mod cps)) by (pose proof (Z.mod_pos_bound clk cps); lia).
  destruct (Z.eqb_spec (cps / (speed * 2)) 0) as [|_]; [lia|].
  rewrite land_1_odd, (Z.mul_comm 2 speed), <- Z.negb_odd.
  by destruct (Z.odd _).
Qed.

Lemma fire_bit_merge (value : Z) (b : bool) :
  let r := Z.lor (Z.land value 0xffef) (if negb (Z.b2z b =? 0) then JOYPORT_FIRE else 0) in
  Z.testbit r 4 = b ∧ Z.land r 0xffef = Z.land value 0xffef.
Proof.
  cbv zeta. split.
  - rewrite Z.lor_spec, Z.land_spec.
    change (Z.testbit 65519 4) with false. rewrite andb_false_r. by destruct b.
  - rewrite Z.land_lor_distr_l, <- Z.land_assoc, Z.land_diag.
    destruct b; simpl; apply Z.lor_0_r.
Qed.

(** C9. For a port with autofire enabled, 16-bit value [value], a cycle
    counter [clk >= 0], [cps] cycles per second that fit 32 bits and an
    autofire speed with [0 < 2 * speed <= cps] (what keeps the divisions
    of the source defined): in mode "press" a released fire bit gives the
    raw value back unchanged, and a held fire bit gives a fire bit equal
    to the parity pattern [(clk mod cps) / (cps / (2 * speed))] even,
    the other bits being those of the value; in mode "permanent" the
    pattern is applied while the fire bit is released and a held fire
    bit passes through. *)
Theorem autofire_modes (st : state) (index : nat) :
  let value := rd (joystick_value st) index in
  let clk := maincpu_clk (host st) in
  let cps := machine_get_cycles_per_second (host st) in
  let speed := rd (joystick_autofire_speed st) index in
  let mode := rd (joystick_autofire_mode st) index in
  let patterned := λ result,
    ∃ r, result = Some r ∧ Z.testbit r 4 = autofire_pattern clk cps speed ∧
         Z.land r 0xffef = Z.land value 0xffef in
  rd (joystick_autofire_enable st) index ≠ 0 →
  0 ≤ value < 65536 →
  0 ≤ clk → 0 < cps < 4294967296 → 0 < speed → 2 * speed ≤ cps →
  (mode = JOYSTICK_AUTOFIRE_MODE_PRESS →
   (Z.testbit value 4 = false → get_joystick_value index st = Some value) ∧
   (Z.testbit value 4 = true → patterned (get_joystick_value index st))) ∧
  (mode = JOYSTICK_AUTOFIRE_MODE_PERMANENT →
   (Z.testbit value 4 = false → patterned (get_joystick_value index st)) ∧
   (Z.testbit value 4 = true → get_joystick_value index st = Some value)).
Proof.
  intros value clk cps speed mode patterned Hen Hval Hclk Hcps Hspeed Hflip.
  pose proof (get_joystick_autofire_pattern st index Hclk Hcps Hspeed Hflip) as Hauto.
  fold clk cps speed in Hauto.
  assert (∀ b, Z.testbit value 4 = b →
            Z.lor (Z.land value 0xffef) (if negb (Z.b2z b =? 0) then JOYPORT_FIRE else 0)
            = value) as Hraw.
  { intros b Hb. apply Z.bits_inj'. intros k Hk.
    rewrite Z.lor_spec, Z.land_spec.
    destruct (decide (k = 4)) as [->|Hne].
    - rewrite Hb. by destruct b.
    - assert (Z.testbit (if negb (Z.b2z b =? 0) then JOYPORT_FIRE else 0) k = false) as ->.
      { destruct b; simpl; [|apply Z.bits_0].
        apply (Z.pow2_bits_false 4 k). done. }
      rewrite orb_false_r.
      destruct (decide (k < 16)) as [Hlt|Hge].
      + assert (Z.testbit 65519 k = true) as ->; [|apply andb_true_r].
        assert (k = 0 ∨ k = 1 ∨ k = 2 ∨ k = 3 ∨ k = 5 ∨ k = 6 ∨ k = 7 ∨ k = 8 ∨ k = 9 ∨
                k = 10 ∨ k = 11 ∨ k = 12 ∨ k = 13 ∨ k = 14 ∨ k = 15) as Hcases by lia.
        repeat (destruct Hcases as [->|Hcases]; [reflexivity|]). by subst.
      + assert (Z.testbit value k = false) as ->; [|done].
        destruct (decide (value = 0)) as [->|Hnz]; [apply Z.bits_0|].
        apply Z.bits_above_log2; [lia|].
        apply Z.log2_lt_pow2; [lia|]. 
        apply Z.lt_le_trans with (2 ^ 16); [lia|]. apply Z.pow_le_mono_r; lia. }
  unfold get_joystick_value. fold value.
  rewrite JOYPORT_BIT_BOOL_testbit.
  destruct (Z.eqb_spec (rd (joystick_autofire_enable st) index) 0) as [|_]; [done|].
  change (negb false) with true. cbv iota. fold mode.
  destruct (Z.testbit value 4) eqn:Hfire.
  - change (Z.b2z true =? 0) with false. change (negb false) with true. cbv iota.
    split; intros Hmode; rewrite Hmode; (split; [done|intros _]).
    + change (JOYSTICK_AUTOFIRE_MODE_PRESS =? JOYSTICK_AUTOFIRE_MODE_PERMANENT) with false.
      cbv iota. rewrite Hauto. eexists. split; [done|]. apply fire_bit_merge.
    + change (JOYSTICK_AUTOFIRE_MODE_PERMANENT =? JOYSTICK_AUTOFIRE_MODE_PERMANENT) with true.
      cbv iota. simpl mbind. f_equal. apply (Hraw true eq_refl).
  - change (Z.b2z false =? 0) with true. change (negb true) with false. cbv iota.
    split; intros Hmode; rewrite Hmode; (split; [intros _|done]).
    + change (JOYSTICK_AUTOFIRE_MODE_PRESS =? JOYSTICK_AUTOFIRE_MODE_PERMANENT) with false.
      cbv iota. simpl mbind. f_equal. apply (Hraw false eq_refl).
    + change (JOYSTICK_AUTOFIRE_MODE_PERMANENT =? JOYSTICK_AUTOFIRE_MODE_PERMANENT) with true.
      cbv iota. rewrite Hauto. eexists. split; [done|]. apply fire_bit_merge.
Qed.

Lemma autofire_modes_witness :
  let st := set_joystick_value (<[1%nat:=0x11]> (replicate 11 0))
              (set_host {| event_playback_active := false; network_connected := false;
                           maincpu_clk := 49263; machine_get_cycles_per_frame := 19656;
                           machine_get_cycles_per_second := 985248;
                           fopen_write_fails := λ _, false |} sample_state) in
  let st := {| host := host st; rand_seed := rand_seed st; files := files st;
               trace := trace st; joystick_value := joystick_value st;
               latch_joystick_value := latch_joystick_value st;
               joystick_opposite_enable := 0;
               joystick_autofire_enable := replicate 11 1;
               joystick_autofire_mode := replicate 11 JOYSTICK_AUTOFIRE_MODE_PRESS;
               joystick_autofire_speed := replicate 11 10;
               joystick_hook := joystick_hook st;
               joystick_hook_mask := joystick_hook_mask st;
               joystick_hook_state := joystick_hook_state st;
               gtkjoy_pins := gtkjoy_pins st; joystick_devices := joystick_devices st;
               customize := customize st; dispatched := dispatched st |} in
  ∃ r, get_joystick_value 1 st = Some r ∧
       Z.testbit r 4 = autofire_pattern 49263 985248 10 ∧
       Z.land r 0xffef = Z.land 0x11 0xffef.
Proof.
  intros st0 st.
  refine (proj2 (proj1 (autofire_modes st 1 _ _ _ _ _ _) _) _).
  - vm_compute. discriminate.
  - vm_compute. split; [discriminate|reflexivity].
  - vm_compute. discriminate.
  - vm_compute. split; reflexivity.
  - reflexivity.
  - vm_compute. discriminate.
  - reflexivity.
  - reflexivity.
Defined.

(** ** Unchanged events *)

Section Idempotence.
Context `{Host}.

(** An axis event whose discretized direction is the stored one
    dispatches nothing and changes nothing. *)
Lemma joy_axis_event_unchanged (d a : nat) (value : Z) (st : state) joydev axis :
  devices st !! d = Some joydev → axes joydev !! a = Some axis →
  axis_direction axis value = axis_prev axis →
  joy_axis_event d a value st = Some st.
Proof.
  intros Hd Ha Hdir. unfold joy_axis_event. rewrite Hd. simpl. rewrite Ha. simpl.
  by rewrite decide_True.
Qed.

(** A hat event whose direction mask is the stored one dispatches nothing
    and changes nothing. *)
Lemma joy_hat_event_unchanged (d h : nat) (value : Z) (st : state) joydev hat :
  devices st !! d = Some joydev → hats joydev !! h = Some hat →
  value = hat_prev hat →
  joy_hat_event d h value st = Some st.
Proof.
  intros Hd Hh ->. unfold joy_hat_event. rewrite Hd. simpl. rewrite Hh. simpl.
  by rewrite Z.eqb_refl.
Qed.

(** A button event whose raw value is the stored one dispatches nothing
    and changes nothing. *)
Lemma joy_button_event_unchanged (d b : nat) (value : Z) (st : state) joydev button :
  devices st !! d = Some joydev → buttons joydev !! b = Some button →
  value = button_prev button →
  joy_button_event d b value st = Some st.
Proof.
  intros Hd Hb ->. unfold joy_button_event. rewrite Hd. simpl. rewrite Hb. simpl.
  by rewrite Z.eqb_refl.
Qed.

End Idempotence.

(** C3, the code at the failing input. A button mapped to fire is
    pressed with raw value 1 and then reported with raw value 2: the
    pressed/not-pressed boolean is unchanged, yet [joy_button_event]
    compares the raw values, dispatches the press a second time and the
    press counter of fire reaches 2, so the release that follows leaves
    fire set in the latch. *)
Theorem joy_button_event_repeats_press :
  let fire := mapping_pin JOYPAD_FIRE in
  let pad := sample_device "pad" [] [sample_button 0 0 fire]
               [sample_hat 0 mapping_none mapping_none mapping_none mapping_none] in
  let st0 := set_joystick_devices (Some [pad]) sample_state in
  let event := λ value st, st ≫= joy_button_event (H := sample_host) 0 0 value in
  let st1 := event 1 (Some st0) in
  let st2 := event 2 st1 in
  let st3 := event 0 st2 in
  dispatched <$> st1 = Some [(fire, 0, 1)] ∧
  dispatched <$> st2 = Some [(fire, 0, 1); (fire, 0, 1)] ∧
  (λ st, rd2 (gtkjoy_pins st) 0 4) <$> st2 = Some 2 ∧
  (λ st, Z.testbit (latched st 0) 4) <$> st3 = Some true.
Proof. repeat split; vm_compute; reflexivity. Qed.

(** ** Snapshots *)

Lemma snapshot_word (w : Z) :
  0 ≤ w < 65536 →
  Z.lor (Z.land w 0xff) (Z.shiftl (Z.land (Z.shiftr w 8) 0xff) 8) = w.
Proof.
  intros Hw. apply Z.bits_inj'. intros k Hk.
  rewrite Z.lor_spec, Z.land_spec.
  change 255 with (Z.ones 8).
  destruct (decide (k < 8)) as [Hlt|Hge].
  - rewrite Z.shiftl_spec_low, Z.ones_spec_low by lia.
    by rewrite andb_true_r, orb_false_r.
  - rewrite Z.ones_spec_high, andb_false_r by lia. simpl.
    rewrite Z.shiftl_spec, Z.land_spec, Z.shiftr_spec by lia.
    replace (k - 8 + 8) with k by lia.
    destruct (decide (k < 16)) as [Hlt|Hge'].
    + rewrite Z.ones_spec_low by lia. apply andb_true_r.
    + rewrite Z.ones_spec_high, andb_false_r by lia.
      destruct (decide (w = 0)) as [->|Hnz]; [by rewrite Z.bits_0|].
      symmetry. apply Z.bits_above_log2; [lia|].
      apply Z.log2_lt_pow2; [lia|].
      apply Z.lt_le_trans with (2 ^ 16); [lia|]. apply Z.pow_le_mono_r; lia.
Qed.

(** Reading back the module written for [port] succeeds and stores the
    value that port had at [joystick_value[port + 1]]. *)
Lemma joystick_snapshot_read_after_write (s : gmap string snapshot_module_t)
    (port : Z) (st st' : state) :
  0 ≤ rd (joystick_value st) (Z.to_nat port) < 65536 →
  joystick_snapshot_read_module (snd (joystick_snapshot_write_module s port st)) port st' =
  (0, set_joystick_value
        (<[Z.to_nat (port + 1):=rd (joystick_value st) (Z.to_nat port)]> (joystick_value st'))
        st').
Proof.
  intros Hw. unfold joystick_snapshot_read_module, joystick_snapshot_write_module.
  simpl. rewrite lookup_insert_eq. simpl. by rewrite snapshot_word.
Qed.

(** C5, the code at the failing input. Port 0 holds fire (0x10) when its
    module is written; the module is read back for port 0 into a state
    whose ports are all 0: the read succeeds, port 0 still reads 0 and the
    saved value has gone to port 1. *)
Theorem joystick_snapshot_read_restores_next_port :
  let saved := set_joystick_value (<[0%nat:=0x10]> (replicate 11 0)) sample_state in
  let s := snd (joystick_snapshot_write_module ∅ 0 saved) in
  let result := joystick_snapshot_read_module s 0 sample_state in
  rd (joystick_value saved) 0 = 0x10 ∧
  fst result = 0 ∧
  rd (joystick_value (snd result)) 0 = 0 ∧
  rd (joystick_value (snd result)) 1 = 0x10.
Proof.
  intros saved s result. subst result s.
  rewrite joystick_snapshot_read_after_write
    by (split; [apply Z.leb_le | apply Z.ltb_lt]; vm_compute; reflexivity).
  repeat split.
Qed.

(** ** The keyword CLEAR *)

(** [joy_arch_keyword_clear] sets the action of every direction, button
    and hat mapping to none and leaves every potentiometer target as it
    is. *)
Lemma joy_arch_keyword_clear_devices (st : state) :
  devices (joy_arch_keyword_clear st) =
  (λ joydev,
     set_hats
       ((λ hat, set_right (set_action JOY_ACTION_NONE (right hat))
                  (set_left (set_action JOY_ACTION_NONE (left hat))
                     (set_down (set_action JOY_ACTION_NONE (down hat))
                        (set_up (set_action JOY_ACTION_NONE (up hat)) hat)))) <$> hats joydev)
       (set_buttons
          ((λ button, set_button_mapping
                        (set_action JOY_ACTION_NONE (button_mapping button)) button)
             <$> buttons joydev)
          (set_axes
             ((λ axis, set_negative (set_action JOY_ACTION_NONE (negative axis))
                         (set_positive (set_action JOY_ACTION_NONE (positive axis)) axis))
                <$> axes joydev) joydev))) <$> devices st.
Proof. unfold joy_arch_keyword_clear, devices. simpl. by destruct (joystick_devices st). Qed.

Lemma joy_arch_keyword_clear_pot (st : state) (d a : nat) joydev axis :
  devices st !! d = Some joydev → axes joydev !! a = Some axis →
  ∃ joydev' axis',
    devices (joy_arch_keyword_clear st) !! d = Some joydev' ∧
    axes joydev' !! a = Some axis' ∧
    action (positive axis') = JOY_ACTION_NONE ∧
    action (negative axis') = JOY_ACTION_NONE ∧
    pot axis' = pot axis.
Proof.
  intros Hd Ha. rewrite joy_arch_keyword_clear_devices, list_lookup_fmap, Hd. simpl.
  eexists _, _. split; [done|]. simpl. rewrite list_lookup_fmap, Ha. simpl. done.
Qed.

(** C6, the code at the failing input. A device whose axis 0 is mapped
    to potentiometer 2 loads a file that holds the line [!CLEAR]: the
    directions, the button and the hat are unmapped afterwards, and the
    axis still has its potentiometer target 2. *)
Theorem keyword_clear_keeps_pot :
  let pad := sample_device "pad"
               [sample_axis 0 (mapping_pin JOYPAD_W) (mapping_pin JOYPAD_E) 2]
               [sample_button 0 0 (mapping_pin JOYPAD_FIRE)]
               [sample_hat 0 (mapping_pin 1) (mapping_pin 2) (mapping_pin 4) (mapping_pin 8)] in
  let st := set_files {["clear.vjm" := "!CLEAR" +:+ nl]}
              (set_joystick_devices (Some [pad]) sample_state) in
  let result := joy_arch_mapping_load (H := sample_host) (Some "clear.vjm") st in
  fst result = 0 ∧
  (λ joydev, (λ axis, (action (positive axis), action (negative axis), pot axis))
               <$> axes joydev) <$> devices (snd result) =
    [[(JOY_ACTION_NONE, JOY_ACTION_NONE, 2)]] ∧
  (λ joydev, (λ button, action (button_mapping button)) <$> buttons joydev)
    <$> devices (snd result) = [[JOY_ACTION_NONE]] ∧
  (λ joydev, (λ hat, (action (up hat), action (down hat), action (left hat),
                      action (right hat))) <$> hats joydev)
    <$> devices (snd result) =
    [[(JOY_ACTION_NONE, JOY_ACTION_NONE, JOY_ACTION_NONE, JOY_ACTION_NONE)]].
Proof. repeat split; vm_compute; reflexivity. Qed.

(** ** Device registry *)

Lemma reject_iff_not_minimum_inputs (joydev : joystick_device_t) :
  negb (((num_axes joydev >=? 2) || (num_hats joydev >=? 1)) &&
        (num_buttons joydev >=? 1)) = true ↔ ¬ minimum_inputs joydev.
Proof.
  unfold minimum_inputs. rewrite negb_true_iff, andb_false_iff, orb_false_iff.
  rewrite !Z.geb_leb, !Z.leb_gt. lia.
Qed.

Lemma order_inputs_on_code_counts (joydev : joystick_device_t) :
  num_axes (order_inputs_on_code joydev) = num_axes joydev ∧
  num_buttons (order_inputs_on_code joydev) = num_buttons joydev ∧
  num_hats (order_inputs_on_code joydev) = num_hats joydev.
Proof.
  unfold order_inputs_on_code, num_axes, num_buttons, num_hats. simpl.
  rewrite !length_imap.
  repeat split; f_equal; (destruct (_ >? 1); [|done]);
    apply Permutation_length, merge_sort_Permutation.
Qed.

Lemma joystick_device_apply_default_mapping_counts (joydev : joystick_device_t) (st : state) :
  let '(_, joydev', st') := joystick_device_apply_default_mapping joydev st in
  num_axes joydev' = num_axes joydev ∧
  num_buttons joydev' = num_buttons joydev ∧
  num_hats joydev' = num_hats joydev ∧
  joystick_devices st' = joystick_devices st ∧
  customize st' = customize st.
Proof.
  unfold joystick_device_apply_default_mapping, num_axes, num_buttons, num_hats.
  destruct (_ >? 0); [|destruct (_ >? 1)]; simpl;
    try (destruct (_ =? 0)); try (destruct (_ >? 1)); try (destruct (_ >? 2));
    simpl; rewrite ?length_alter; by repeat split.
Qed.

(** The device a successful registration appends, before the custom
    hook of the driver: it has the inputs of the device presented. *)
Lemma joystick_device_register_accepts (joydev : joystick_device_t) (st : state) :
  minimum_inputs joydev →
  ∃ joydev' st',
    num_axes joydev' = num_axes joydev ∧
    num_buttons joydev' = num_buttons joydev ∧
    num_hats joydev' = num_hats joydev ∧
    customize st' = customize st ∧
    joystick_device_register joydev st =
    let joydev'' := match customize st with Some f => f joydev' | None => joydev' end in
    (true, call (log_registered joydev'')
             (set_joystick_devices ((λ l, (l ++ [joydev''])%list) <$> joystick_devices st) st')).
Proof.
  intros Hmin. unfold joystick_device_register.
  destruct (negb _) eqn:Hrej.
  { apply reject_iff_not_minimum_inputs in Hrej. done. }
  set (joydev1 := joystick_device_trim_name joydev).
  set (joydev2 := if negb (disable_sort joydev1) then _ else joydev1).
  assert (num_axes joydev2 = num_axes joydev ∧ num_buttons joydev2 = num_buttons joydev ∧
          num_hats joydev2 = num_hats joydev) as (Ha & Hb & Hh).
  { pose proof (order_inputs_on_code_counts joydev1) as (Ho1 & Ho2 & Ho3).
    subst joydev2. destruct (negb (disable_sort joydev1));
      [rewrite Ho1, Ho2, Ho3|]; by repeat split. }
  pose proof (joystick_device_apply_default_mapping_counts joydev2 st) as Hdef.
  destruct (joystick_device_apply_default_mapping joydev2 st) as [[r joydev3] st3].
  destruct Hdef as (Ha3 & Hb3 & Hh3 & Hdevs & Hcust).
  exists joydev3, st3. rewrite Hcust, Hdevs.
  repeat split; congruence.
Qed.

(** C8. A device that fails the minimum-input invariant (at least one
    button and at least two axes or one hat) is refused: registration
    returns false, the device is closed and freed, and the registry is
    left as it is. A registration keeps the invariant on every device of
    the registry, and so does any sequence of registrations, provided the
    custom hook of the driver, when there is one, does not take the
    required inputs away. *)
Theorem joystick_device_register_minimum_inputs (joydev : joystick_device_t) (st : state) :
  (¬ minimum_inputs joydev →
   joystick_device_register joydev st =
     (false, call (device_freed joydev) (call (driver_close joydev) st)) ∧
   joystick_devices (snd (joystick_device_register joydev st)) = joystick_devices st) ∧
  ((∀ f d, customize st = Some f → minimum_inputs d → minimum_inputs (f d)) →
   Forall minimum_inputs (devices st) →
   Forall minimum_inputs (devices (snd (joystick_device_register joydev st))) ∧
   ∀ l : list joystick_device_t,
     Forall minimum_inputs
       (devices (foldl (λ st joydev, snd (joystick_device_register joydev st))
                       st (joydev :: l)))).
Proof.
  assert (∀ joydev st,
            (∀ f d, customize st = Some f → minimum_inputs d → minimum_inputs (f d)) →
            Forall minimum_inputs (devices st) →
            Forall minimum_inputs (devices (snd (joystick_device_register joydev st))) ∧
            customize (snd (joystick_device_register joydev st)) = customize st) as Hstep.
  { clear. intros joydev st Hcust Hinv.
    destruct (decide (minimum_inputs joydev)) as [Hmin|Hmin].
    - destruct (joystick_device_register_accepts joydev st Hmin)
        as (joydev' & st' & Ha & Hb & Hh & Hc & ->).
      cbv zeta. simpl. split; [|done].
      unfold devices in *. simpl. destruct (joystick_devices st) as [l|]; simpl; [|done].
      apply Forall_app. split; [done|]. constructor; [|done].
      assert (minimum_inputs joydev') as Hmin'.
      { unfold minimum_inputs. rewrite Ha, Hb, Hh. done. }
      destruct (customize st) as [f|] eqn:Hf; [|done]. by apply (Hcust f).
    - apply reject_iff_not_minimum_inputs in Hmin.
      unfold joystick_device_register. rewrite Hmin. done. }
  split.
  - intros Hmin. apply reject_iff_not_minimum_inputs in Hmin.
    unfold joystick_device_register. rewrite Hmin. done.
  - intros Hcust Hinv. split; [by apply Hstep|].
    intros l. revert joydev st Hcust Hinv.
    induction l as [|joydev' l IH]; intros joydev st Hcust Hinv.
    + by apply Hstep.
    + destruct (Hstep joydev st Hcust Hinv) as [Hinv1 Hcust1].
      change (foldl ?f st (joydev :: joydev' :: l))
        with (foldl f (snd (joystick_device_register joydev st)) (joydev' :: l)).
      apply IH; [|done]. by rewrite Hcust1.
Qed.

Lemma joystick_device_register_minimum_inputs_witness :
  let no_buttons := sample_device "wheel" [sample_axis 0 mapping_none mapping_none 0;
                                           sample_axis 1 mapping_none mapping_none 0] [] [] in
  let pad := sample_device "pad" [] [sample_button 0 0 mapping_none]
               [sample_hat 0 mapping_none mapping_none mapping_none mapping_none] in
  (joystick_device_register no_buttons sample_state =
     (false, call (device_freed no_buttons) (call (driver_close no_buttons) sample_state)) ∧
   joystick_devices (snd (joystick_device_register no_buttons sample_state)) =
     joystick_devices sample_state) ∧
  Forall minimum_inputs (devices (snd (joystick_device_register pad sample_state))).
Proof.
  intros no_buttons pad. split.
  - refine (proj1 (joystick_device_register_minimum_inputs no_buttons sample_state) _).
    unfold minimum_inputs. vm_compute. intros [Hb _]. by apply Hb.
  - refine (proj1 (proj2 (joystick_device_register_minimum_inputs pad sample_state) _ _)).
    + intros f d Hf. discriminate Hf.
    + constructor.
Defined.

(** ** Reading a file line by line *)

#[local] Arguments String.append !s1 s2 : simpl nomatch.










Section Loader.
Context `{Host}.





(** [fgets] takes at least one character from a file that has one. *)
Lemma fgets_shorter (n : nat) (fp : string) :
  fp ≠ "" →
  (String.length (snd (fgets (S n) fp)) < String.length fp)%nat.
Proof.
  revert n. induction fp as [|c fp IH]; intros n Hne; [done|]. cbn.
  destruct (Ascii.eqb c "010"); [simpl; lia|].
  destruct n as [|n]; [simpl; lia|].
  destruct fp as [|c' fp']; [simpl; lia|].
  specialize (IH n ltac:(done)).
  destruct (fgets (S n) (String c' fp')) as [buffer rest]. simpl in *. lia.
Qed.

(** The fuel of [joy_arch_mapping_load] is never used up: any fuel above
    the length of the file gives the same result. *)
Lemma load_loop_fuel (fuel1 fuel2 : nat) (fp filename : string) (lineno : Z) (st : state) :
  (String.length fp < fuel1)%nat → (String.length fp < fuel2)%nat →
  load_loop fuel1 fp filename lineno st = load_loop fuel2 fp filename lineno st.
Proof.
  revert fuel2 fp lineno st.
  induction fuel1 as [|fuel1 IH]; intros fuel2 fp lineno st H1 H2; [lia|].
  destruct fuel2 as [|fuel2]; [lia|]. cbn [load_loop].
  destruct fp as [|c fp]; [done|].
  pose proof (fgets_shorter 997 (String c fp) ltac:(done)) as Hshort.
  destruct (fgets 998 (String c fp)) as [buffer rest].
  destruct (load_buffer buffer filename lineno st); [|done].
  simpl in Hshort, H1, H2. apply IH; lia.
Qed.

End Loader.

(** ** A line with a button index out of range *)

Section MalformedLine.
Context `{Host}.


End MalformedLine.



(** ** The dump, line by line *)



Section DumpText.
Context `{Host}.







End DumpText.

(** ** Printing and parsing numbers *)






















(** ** Parsing a printed line *)








Section ParseLine.
Context `{Host}.





End ParseLine.

(** ** What a printed line does to the registry *)

#[local] Open Scope list_scope.




Section LineEffect.
Context `{Host}.














End LineEffect.

Section SlotLines.
Context `{Host}.





End SlotLines.

Section Blocks.
Context `{Host}.










End Blocks.

Section Reload.
Context `{Host}.

Lemma with_devices_with_devices (l l' : list joystick_device_t) (st : state) :
  with_devices l (with_devices l' st) = with_devices l st.
Proof. reflexivity. Qed.






End Reload.

(** ** Every line of a dump is read whole *)



Section GoodLines.
Context `{Host}.










End GoodLines.

(** ** A dump followed by a load *)







Section RoundTrip.
Context `{Host}.


End RoundTrip.


Section RoundTripClaim.
Context `{Host}.


End RoundTripClaim.


(** The file written for the sample registry, loaded into that registry
    with every mapping cleared, gives the sample registry back. *)
Example sample_registry_reloaded :
  let st := with_devices sample_registry sample_state in
  let st_d := snd (joy_arch_mapping_dump (H := sample_host) (Some "joy.vjm") st) in
  let st' := with_devices (cleared_device <$> sample_registry) st_d in
  let st_l := snd (joy_arch_mapping_load (H := sample_host) (Some "joy.vjm") st') in
  fst (joy_arch_mapping_load (H := sample_host) (Some "joy.vjm") st') = 0 ∧
  devices st_l = sample_registry.
Proof. split; vm_compute; reflexivity. Qed.

